(** * IoT ingestion service: a shallow embedding and its properties

    The development follows [iot-pipeline/services/ingestion/main.py]
    (class [IoTIngestionService]).  Every method of the class becomes a
    computation in a state-and-exception monad over the service object and
    the external stores it talks to (InfluxDB, Kafka, Redis, MongoDB, the
    MQTT client).  External calls may raise; whether a given call raises is
    read from an oracle carried by the environment of the step, so every
    theorem below quantifies over all failure patterns. *)

From Stdlib Require Import QArith.
From Stdlib Require Import Ascii String.
From stdpp Require Import gmap strings list fin_maps.

Set Warnings "-register-all".

Local Open Scope string_scope.
Local Open Scope list_scope.

(** ** Python values that cross the service *)

(** What [json.loads] produces.  Numbers are kept as the exact rational
    the literal denotes; a JSON object keeps its bindings in order, as a
    Python dict does. *)
Inductive JVal : Type :=
| JNull
| JBool (b : bool)
| JNum (q : Q)
| JStr (s : string)
| JArr (items : list JVal)
| JObj (items : list (string * JVal))
| JDate (t : nat).

(** [datetime] values: seconds since the epoch.  Inside a dict built by
    the service a datetime object is a [JDate]; [json.loads] never
    produces one. *)
Definition datetime : Type := nat.

(** [dict.get(key)] on the bindings of a dict. *)
Fixpoint dict_lookup (key : string) (items : list (string * JVal)) : option JVal :=
  match items with
  | [] => None
  | (k, v) :: rest => if String.eqb k key then Some v else dict_lookup key rest
  end.

(** [dict.get(key, default)]. *)
Definition dict_get (key : string) (default : JVal) (items : list (string * JVal)) : JVal :=
  match dict_lookup key items with
  | Some v => v
  | None => default
  end.

(** [str.split(sep)] for a one-character separator: the result is never
    empty, and consecutive separators give empty segments. *)
Fixpoint split (sep : ascii) (s : string) : list string :=
  match s with
  | EmptyString => [EmptyString]
  | String c rest =>
      if Ascii.eqb c sep then EmptyString :: split sep rest
      else match split sep rest with
           | [] => [String c EmptyString]
           | w :: ws => String c w :: ws
           end
  end.

Definition slash : ascii := "/"%char.

(** ** Exceptions *)

Inductive Error : Type :=
| JSONDecodeError
| AttributeError
| KeyError (key : string)
| TypeError
| ValueError
| IndexError
| ValidationError
| RuntimeError
| SinkError (what : string)
| ConnectError (what : string)
| Interrupted.

(** [Interrupted] stands for the [BaseException]s that end the process
    ([SystemExit] from the signal handler, [CancelledError]); the others
    derive from [Exception]. *)
Definition is_exception (e : Error) : bool :=
  match e with
  | Interrupted => false
  | _ => true
  end.

Inductive Res (A : Type) : Type :=
| Ret (a : A)
| Exn (e : Error).
Arguments Ret {A} a.
Arguments Exn {A} e.

(** ** External calls

    Each call the service makes on a client library.  The environment of
    a step says which of them raise. *)
Inductive ExtCall : Type :=
| InfluxConnect | RedisPing | MongoPing | KafkaInit | MqttConnect
| CreateTask
| InfluxWrite | KafkaSend | RedisHset | RedisExpire | RedisSet
| MongoInsert | MongoUpdate.

Global Instance ExtCall_eq_dec : EqDecision ExtCall.
Proof. solve_decision. Defined.

Record Env : Type := {
  now : datetime;            (* datetime.utcnow() during the step *)
  fails : ExtCall -> bool;   (* the calls that raise during the step *)
  connack_rc : nat           (* return code the broker answers a connect with *)
}.

(** ** Records written to the stores *)

(** Modelled from the spec: [models.sensor_data.SensorData], the pydantic
    model built by [process_sensor_data]; its file is not part of the
    sources.  The fields are those of the constructor call plus
    [data_hash], which is absent until the service assigns it. *)
Record SensorData : Type := {
  device_id : string;
  sensor_type : string;
  timestamp : datetime;
  value : Q;
  unit_ : string;
  quality : Q;
  metadata : list (string * JVal);
  data_hash : option string
}.

Definition with_data_hash (h : option string) (r : SensorData) : SensorData :=
  {| device_id := device_id r; sensor_type := sensor_type r;
     timestamp := timestamp r; value := value r; unit_ := unit_ r;
     quality := quality r; metadata := metadata r; data_hash := h |}.

Definition opt_str (o : option string) : JVal :=
  match o with
  | Some s => JStr s
  | None => JNull
  end.

(** [sensor_data.dict()]. *)
Definition to_dict (r : SensorData) : list (string * JVal) :=
  [("device_id", JStr (device_id r)); ("sensor_type", JStr (sensor_type r));
   ("timestamp", JDate (timestamp r)); ("value", JNum (value r));
   ("unit", JStr (unit_ r)); ("quality", JNum (quality r));
   ("metadata", JObj (metadata r)); ("data_hash", opt_str (data_hash r))].

(** An InfluxDB [Point]. *)
Record Point : Type := {
  measurement : string;
  tags : list (string * string);
  fields : list (string * JVal);
  time : option datetime
}.

Definition point (m : string) : Point :=
  {| measurement := m; tags := []; fields := []; time := None |}.
Definition tag (k v : string) (p : Point) : Point :=
  {| measurement := measurement p; tags := tags p ++ [(k, v)];
     fields := fields p; time := time p |}.
Definition field (k : string) (v : JVal) (p : Point) : Point :=
  {| measurement := measurement p; tags := tags p;
     fields := fields p ++ [(k, v)]; time := time p |}.
Definition at_time (t : datetime) (p : Point) : Point :=
  {| measurement := measurement p; tags := tags p;
     fields := fields p; time := Some t |}.

(** A record handed to [KafkaProducer.send]. *)
Record KafkaRecord : Type := {
  k_topic : string;
  k_key : option JVal;
  k_value : list (string * JVal)
}.

(** The dict the statistics reporter publishes. *)
Record Stats : Type := {
  s_timestamp : string;
  s_messages_processed : nat;
  s_messages_failed : nat;
  s_active_devices : nat;
  s_success_rate : Q
}.

(** A coroutine handed to [asyncio.create_task]. *)
Inductive Task : Type :=
| SensorDataTask (device sensor payload : string)
| DeviceStatusTask (device payload : string)
| DeviceConfigTask (device payload : string)
| StatsReporterTask.

Global Instance Task_eq_dec : EqDecision Task.
Proof. solve_decision. Defined.

Inductive Level : Type := DEBUG | INFO | WARNING | ERROR.

(** ** The service object and the world around it *)

Inductive Conn : Type := Open | Closed.

Record MqttClient : Type := {
  connected : bool;
  loop_started : bool;
  subscriptions : list string
}.

Record Service : Type := {
  mqtt_client : option MqttClient;
  kafka_producer : option Conn;
  influxdb_client : option Conn;
  redis_client : option Conn;
  mongodb_client : option Conn;
  running : bool;
  messages_processed : nat;
  messages_failed : nat;
  devices_active : gset string
}.

Record World : Type := {
  influx_points : list Point;
  kafka_log : list KafkaRecord;
  redis_hashes : gmap string (gmap string JVal);
  redis_ttl : gmap string nat;
  redis_strings : gmap string Stats;
  mongo_sensor_metadata : list (list (string * JVal));
  mongo_device_configs : gmap string (list (string * JVal));
  tasks : list Task;
  calls : list ExtCall;          (* every external call attempted, in order *)
  log : list (Level * string);
  frame : option SensorData      (* local [sensor_data] of the running task *)
}.

Record State : Type := { svc : Service; world : World }.

(** [IoTIngestionService.__init__]. *)
Definition init_service : Service :=
  {| mqtt_client := None; kafka_producer := None; influxdb_client := None;
     redis_client := None; mongodb_client := None; running := false;
     messages_processed := 0; messages_failed := 0; devices_active := ∅ |}.

Definition empty_world : World :=
  {| influx_points := []; kafka_log := []; redis_hashes := ∅; redis_ttl := ∅;
     redis_strings := ∅; mongo_sensor_metadata := []; mongo_device_configs := ∅;
     tasks := []; calls := []; log := []; frame := None |}.

Definition init_state : State := {| svc := init_service; world := empty_world |}.

(** Field updates ([self.x = v] and the writes a store receives). *)
Definition on_svc (f : Service -> Service) (s : State) : State :=
  {| svc := f (svc s); world := world s |}.
Definition on_world (f : World -> World) (s : State) : State :=
  {| svc := svc s; world := f (world s) |}.

Definition set_mqtt_client v : State -> State :=
  on_svc (fun x =>
    {| mqtt_client := v; kafka_producer := kafka_producer x;
       influxdb_client := influxdb_client x; redis_client := redis_client x;
       mongodb_client := mongodb_client x; running := running x;
       messages_processed := messages_processed x;
       messages_failed := messages_failed x;
       devices_active := devices_active x |}).
Definition set_kafka_producer v : State -> State :=
  on_svc (fun x =>
    {| mqtt_client := mqtt_client x; kafka_producer := v;
       influxdb_client := influxdb_client x; redis_client := redis_client x;
       mongodb_client := mongodb_client x; running := running x;
       messages_processed := messages_processed x;
       messages_failed := messages_failed x;
       devices_active := devices_active x |}).
Definition set_influxdb_client v : State -> State :=
  on_svc (fun x =>
    {| mqtt_client := mqtt_client x; kafka_producer := kafka_producer x;
       influxdb_client := v; redis_client := redis_client x;
       mongodb_client := mongodb_client x; running := running x;
       messages_processed := messages_processed x;
       messages_failed := messages_failed x;
       devices_active := devices_active x |}).
Definition set_redis_client v : State -> State :=
  on_svc (fun x =>
    {| mqtt_client := mqtt_client x; kafka_producer := kafka_producer x;
       influxdb_client := influxdb_client x; redis_client := v;
       mongodb_client := mongodb_client x; running := running x;
       messages_processed := messages_processed x;
       messages_failed := messages_failed x;
       devices_active := devices_active x |}).
Definition set_mongodb_client v : State -> State :=
  on_svc (fun x =>
    {| mqtt_client := mqtt_client x; kafka_producer := kafka_producer x;
       influxdb_client := influxdb_client x; redis_client := redis_client x;
       mongodb_client := v; running := running x;
       messages_processed := messages_processed x;
       messages_failed := messages_failed x;
       devices_active := devices_active x |}).
Definition set_running v : State -> State :=
  on_svc (fun x =>
    {| mqtt_client := mqtt_client x; kafka_producer := kafka_producer x;
       influxdb_client := influxdb_client x; redis_client := redis_client x;
       mongodb_client := mongodb_client x; running := v;
       messages_processed := messages_processed x;
       messages_failed := messages_failed x;
       devices_active := devices_active x |}).
Definition set_messages_processed v : State -> State :=
  on_svc (fun x =>
    {| mqtt_client := mqtt_client x; kafka_producer := kafka_producer x;
       influxdb_client := influxdb_client x; redis_client := redis_client x;
       mongodb_client := mongodb_client x; running := running x;
       messages_processed := v; messages_failed := messages_failed x;
       devices_active := devices_active x |}).
Definition set_messages_failed v : State -> State :=
  on_svc (fun x =>
    {| mqtt_client := mqtt_client x; kafka_producer := kafka_producer x;
       influxdb_client := influxdb_client x; redis_client := redis_client x;
       mongodb_client := mongodb_client x; running := running x;
       messages_processed := messages_processed x; messages_failed := v;
       devices_active := devices_active x |}).
Definition set_devices_active v : State -> State :=
  on_svc (fun x =>
    {| mqtt_client := mqtt_client x; kafka_producer := kafka_producer x;
       influxdb_client := influxdb_client x; redis_client := redis_client x;
       mongodb_client := mongodb_client x; running := running x;
       messages_processed := messages_processed x;
       messages_failed := messages_failed x; devices_active := v |}).
Definition set_influx_points v : State -> State :=
  on_world (fun w =>
    {| influx_points := v; kafka_log := kafka_log w;
       redis_hashes := redis_hashes w; redis_ttl := redis_ttl w;
       redis_strings := redis_strings w;
       mongo_sensor_metadata := mongo_sensor_metadata w;
       mongo_device_configs := mongo_device_configs w; tasks := tasks w;
       calls := calls w; log := log w; frame := frame w |}).
Definition set_kafka_log v : State -> State :=
  on_world (fun w =>
    {| influx_points := influx_points w; kafka_log := v;
       redis_hashes := redis_hashes w; redis_ttl := redis_ttl w;
       redis_strings := redis_strings w;
       mongo_sensor_metadata := mongo_sensor_metadata w;
       mongo_device_configs := mongo_device_configs w; tasks := tasks w;
       calls := calls w; log := log w; frame := frame w |}).
Definition set_redis_hashes v : State -> State :=
  on_world (fun w =>
    {| influx_points := influx_points w; kafka_log := kafka_log w;
       redis_hashes := v; redis_ttl := redis_ttl w;
       redis_strings := redis_strings w;
       mongo_sensor_metadata := mongo_sensor_metadata w;
       mongo_device_configs := mongo_device_configs w; tasks := tasks w;
       calls := calls w; log := log w; frame := frame w |}).
Definition set_redis_ttl v : State -> State :=
  on_world (fun w =>
    {| influx_points := influx_points w; kafka_log := kafka_log w;
       redis_hashes := redis_hashes w; redis_ttl := v;
       redis_strings := redis_strings w;
       mongo_sensor_metadata := mongo_sensor_metadata w;
       mongo_device_configs := mongo_device_configs w; tasks := tasks w;
       calls := calls w; log := log w; frame := frame w |}).
Definition set_redis_strings v : State -> State :=
  on_world (fun w =>
    {| influx_points := influx_points w; kafka_log := kafka_log w;
       redis_hashes := redis_hashes w; redis_ttl := redis_ttl w;
       redis_strings := v; mongo_sensor_metadata := mongo_sensor_metadata w;
       mongo_device_configs := mongo_device_configs w; tasks := tasks w;
       calls := calls w; log := log w; frame := frame w |}).
Definition set_mongo_sensor_metadata v : State -> State :=
  on_world (fun w =>
    {| influx_points := influx_points w; kafka_log := kafka_log w;
       redis_hashes := redis_hashes w; redis_ttl := redis_ttl w;
       redis_strings := redis_strings w; mongo_sensor_metadata := v;
       mongo_device_configs := mongo_device_configs w; tasks := tasks w;
       calls := calls w; log := log w; frame := frame w |}).
Definition set_mongo_device_configs v : State -> State :=
  on_world (fun w =>
    {| influx_points := influx_points w; kafka_log := kafka_log w;
       redis_hashes := redis_hashes w; redis_ttl := redis_ttl w;
       redis_strings := redis_strings w;
       mongo_sensor_metadata := mongo_sensor_metadata w;
       mongo_device_configs := v; tasks := tasks w; calls := calls w;
       log := log w; frame := frame w |}).
Definition set_tasks v : State -> State :=
  on_world (fun w =>
    {| influx_points := influx_points w; kafka_log := kafka_log w;
       redis_hashes := redis_hashes w; redis_ttl := redis_ttl w;
       redis_strings := redis_strings w;
       mongo_sensor_metadata := mongo_sensor_metadata w;
       mongo_device_configs := mongo_device_configs w; tasks := v;
       calls := calls w; log := log w; frame := frame w |}).
Definition set_calls v : State -> State :=
  on_world (fun w =>
    {| influx_points := influx_points w; kafka_log := kafka_log w;
       redis_hashes := redis_hashes w; redis_ttl := redis_ttl w;
       redis_strings := redis_strings w;
       mongo_sensor_metadata := mongo_sensor_metadata w;
       mongo_device_configs := mongo_device_configs w; tasks := tasks w;
       calls := v; log := log w; frame := frame w |}).
Definition set_log v : State -> State :=
  on_world (fun w =>
    {| influx_points := influx_points w; kafka_log := kafka_log w;
       redis_hashes := redis_hashes w; redis_ttl := redis_ttl w;
       redis_strings := redis_strings w;
       mongo_sensor_metadata := mongo_sensor_metadata w;
       mongo_device_configs := mongo_device_configs w; tasks := tasks w;
       calls := calls w; log := v; frame := frame w |}).
Definition set_frame v : State -> State :=
  on_world (fun w =>
    {| influx_points := influx_points w; kafka_log := kafka_log w;
       redis_hashes := redis_hashes w; redis_ttl := redis_ttl w;
       redis_strings := redis_strings w;
       mongo_sensor_metadata := mongo_sensor_metadata w;
       mongo_device_configs := mongo_device_configs w; tasks := tasks w;
       calls := calls w; log := log w; frame := v |}).

(** ** The monad of the service's methods

    A method reads and writes the state and either returns or raises.
    Writes made before an exception stay made. *)
Definition M (A : Type) : Type := State -> Res A * State.

Global Instance M_ret : MRet M := fun A a s => (Ret a, s).
Global Instance M_bind : MBind M := fun A B k m s =>
  match m s with
  | (Ret a, s') => k a s'
  | (Exn e, s') => (Exn e, s')
  end.

Definition raise {A : Type} (e : Error) : M A := fun s => (Exn e, s).

(** Code that touches no state only returns or raises. *)
Global Instance Res_ret : MRet Res := fun A a => Ret a.
Global Instance Res_bind : MBind Res := fun A B k r =>
  match r with
  | Ret a => k a
  | Exn e => Exn e
  end.

Definition lift {A : Type} (r : Res A) : M A := fun s => (r, s).

(** [try: body  except Exception as e: handler e]. *)
Definition try_except {A : Type} (body : M A) (handler : Error -> M A) : M A :=
  fun s =>
    match body s with
    | (Ret a, s') => (Ret a, s')
    | (Exn e, s') => if is_exception e then handler e s' else (Exn e, s')
    end.

(** [try: body  finally: cleanup]. *)
Definition try_finally {A : Type} (body : M A) (cleanup : M unit) : M A :=
  fun s =>
    match body s with
    | (Ret a, s') =>
        match cleanup s' with
        | (Ret _, s'') => (Ret a, s'')
        | (Exn e, s'') => (Exn e, s'')
        end
    | (Exn e, s') =>
        match cleanup s' with
        | (Ret _, s'') => (Exn e, s'')
        | (Exn e', s'') => (Exn e', s'')
        end
    end.

Definition modify (f : State -> State) : M unit := fun s => (Ret tt, f s).
Definition gets {A : Type} (f : State -> A) : M A := fun s => (Ret (f s), s).

Definition logger (lvl : Level) (msg : string) : M unit :=
  modify (fun s => set_log (log (world s) ++ [(lvl, msg)]) s).

Definition error_of (c : ExtCall) : Error :=
  match c with
  | InfluxConnect => ConnectError "influxdb"
  | RedisPing => ConnectError "redis"
  | MongoPing => ConnectError "mongodb"
  | KafkaInit => ConnectError "kafka"
  | MqttConnect => ConnectError "mqtt"
  | CreateTask => RuntimeError
  | InfluxWrite => SinkError "influxdb"
  | KafkaSend => SinkError "kafka"
  | RedisHset | RedisExpire | RedisSet => SinkError "redis"
  | MongoInsert | MongoUpdate => SinkError "mongodb"
  end.

(** An external call: it is recorded as attempted, then raises or not as
    the environment says. *)
Definition ext_call (env : Env) (c : ExtCall) : M unit :=
  fun s =>
    let s' := set_calls (calls (world s) ++ [c]) s in
    if fails env c then (Exn (error_of c), s') else (Ret tt, s').

(** [lst[i]]. *)
Definition item (l : list string) (i : nat) : M string :=
  match l !! i with
  | Some x => mret x
  | None => raise IndexError
  end.

(** [for x in xs: body x]. *)
Fixpoint for_each {A : Type} (xs : list A) (body : A -> M unit) : M unit :=
  match xs with
  | [] => mret tt
  | x :: rest => body x;; for_each rest body
  end.

(** [asyncio.create_task(coro)]: needs a running event loop, then queues
    the coroutine. *)
Definition create_task (env : Env) (t : Task) : M unit :=
  ext_call env CreateTask;;
  modify (fun s => set_tasks (tasks (world s) ++ [t]) s).

(** [isinstance(x, (int, float))]: Python's [bool] is a subclass of [int]. *)
Definition is_number (v : JVal) : bool :=
  match v with
  | JNum _ | JBool _ => true
  | _ => false
  end.

(** [{**a, **b}]: keys of [a] keep their place and take the value [b]
    gives them; the other keys of [b] follow. *)
Definition dict_merge (a b : list (string * JVal)) : list (string * JVal) :=
  map (fun kv => (fst kv, dict_get (fst kv) (snd kv) b)) a
  ++ filter (fun kv => bool_decide (dict_lookup (fst kv) a = None)) b.

(** ** The methods of [IoTIngestionService] *)

Section Ingestion.

(** [json.loads(payload.decode('utf-8'))]; [None] when it raises. *)
Variable json_loads : string -> option JVal.
(** [datetime.fromisoformat] ([None] when it raises [ValueError]) and
    [datetime.isoformat]. *)
Variable fromisoformat : string -> option datetime.
Variable isoformat : datetime -> string.
(** [utils.validation.validate_sensor_reading] and
    [utils.crypto.hash_sensor_data], which the sources do not include. *)
Variable validate_sensor_reading : SensorData -> bool * list string.
Variable hash_sensor_data : SensorData -> string.

Definition loads (payload : string) : Res JVal :=
  match json_loads payload with
  | Some v => Ret v
  | None => Exn JSONDecodeError
  end.

(** [data.get] and [data[...]] need [data] to be a dict. *)
Definition as_dict (v : JVal) : Res (list (string * JVal)) :=
  match v with
  | JObj items => Ret items
  | _ => Exn AttributeError
  end.

(** [client.subscribe(topic)]. *)
Definition subscribe (topic : string) : M unit :=
  modify (fun s =>
    set_mqtt_client
      (c ← mqtt_client (svc s);
       Some {| connected := connected c; loop_started := loop_started c;
               subscriptions := subscriptions c ++ [topic] |}) s).

(** The three subscriptions of [on_mqtt_connect]. *)
Definition topics : list string :=
  ["carbon/sensors/+/+/data"; "carbon/devices/+/status"; "carbon/devices/+/config"].

Definition on_mqtt_connect (rc : nat) : M unit :=
  if Nat.eqb rc 0 then
    logger INFO "Connected to MQTT broker";;
    for_each topics (fun topic =>
      subscribe topic;;
      logger INFO ("Subscribed to topic: " +:+ topic))
  else
    logger ERROR "Failed to connect to MQTT broker".

(** [initialize]: the five connections in the order of the source.  A
    client attribute is assigned when its constructor returns, so the
    Redis and MongoDB clients exist before their ping and the MQTT client
    before its connect.  Building the InfluxDB client and its write API
    is one call here, and so is parsing the broker URL and connecting. *)
Definition initialize (env : Env) : M unit :=
  try_except
    (ext_call env InfluxConnect;;
     modify (set_influxdb_client (Some Open));;
     logger INFO "InfluxDB connected";;
     modify (set_redis_client (Some Open));;
     ext_call env RedisPing;;
     logger INFO "Redis connected";;
     modify (set_mongodb_client (Some Open));;
     ext_call env MongoPing;;
     logger INFO "MongoDB connected";;
     ext_call env KafkaInit;;
     modify (set_kafka_producer (Some Open));;
     logger INFO "Kafka producer initialized";;
     modify (set_mqtt_client
               (Some {| connected := false; loop_started := false;
                        subscriptions := [] |}));;
     ext_call env MqttConnect;;
     modify (set_mqtt_client
               (Some {| connected := true; loop_started := false;
                        subscriptions := [] |}));;
     logger INFO "MQTT client connected";;
     modify (set_running true);;
     logger INFO "IoT Ingestion Service initialized successfully")
    (fun e =>
       logger ERROR "Failed to initialize IoT Ingestion Service";;
       raise e).

(** [shutdown]: clears [running] and closes every client that exists. *)
Definition shutdown : M unit :=
  logger INFO "Shutting down IoT Ingestion Service...";;
  modify (set_running false);;
  modify (fun s =>
    set_mqtt_client
      (c ← mqtt_client (svc s);
       Some {| connected := false; loop_started := loop_started c;
               subscriptions := subscriptions c |}) s);;
  modify (fun s => set_kafka_producer (_ ← kafka_producer (svc s); Some Closed) s);;
  modify (fun s => set_influxdb_client (_ ← influxdb_client (svc s); Some Closed) s);;
  modify (fun s => set_redis_client (_ ← redis_client (svc s); Some Closed) s);;
  modify (fun s => set_mongodb_client (_ ← mongodb_client (svc s); Some Closed) s);;
  logger INFO "IoT Ingestion Service shutdown complete".

(** [self.mqtt_client.loop_start()]: the network loop starts and hands
    the broker's answer to [on_connect]. *)
Definition loop_start (env : Env) : M unit :=
  c ← gets (fun s => mqtt_client (svc s));
  match c with
  | None => raise AttributeError
  | Some c =>
      modify (set_mqtt_client
                (Some {| connected := connected c; loop_started := true;
                         subscriptions := subscriptions c |}));;
      on_mqtt_connect (connack_rc env)
  end.

(** [while self.running: await asyncio.sleep(1)].  Nothing inside the
    loop clears [running], so it ends when the process is interrupted;
    [n] counts the iterations before that. *)
Fixpoint keep_running (n : nat) : M unit :=
  r ← gets (fun s => running (svc s));
  if (r : bool) then
    match n with
    | 0 => raise Interrupted
    | S k => keep_running k
    end
  else mret tt.

(** [stats_task.cancel()]. *)
Definition cancel_stats_task : M unit :=
  modify (fun s =>
    set_tasks (filter (fun t => t <> StatsReporterTask) (tasks (world s))) s).

(** [run]: startup, the main loop, and [shutdown] in the [finally]
    clause whatever happened before. *)
Definition run (env : Env) (n : nat) : M unit :=
  try_finally
    (try_except
       (initialize env;;
        loop_start env;;
        create_task env StatsReporterTask;;
        logger INFO "IoT Ingestion Service running...";;
        keep_running n;;
        cancel_stats_task)
       (fun e =>
          logger ERROR "IoT Ingestion Service error";;
          raise e))
    shutdown.

(** [self.messages_failed += 1]. *)
Definition count_failed : M unit :=
  modify (fun s => set_messages_failed (messages_failed (svc s) + 1) s).

(** [on_mqtt_message]: the three branches test the segments of the
    topic at the indices the source uses; a branch that is taken queues
    the coroutine of its message kind. *)
Definition on_mqtt_message (env : Env) (topic payload : string) : M unit :=
  try_except
    (let topic_parts := split slash topic in
     if (4 <=? length topic_parts)%nat && bool_decide (topic_parts !! 3 = Some "data") then
       device_id ← item topic_parts 2;
       sensor_type ← (if (4 <? length topic_parts)%nat then item topic_parts 3
                      else mret "unknown");
       create_task env (SensorDataTask device_id sensor_type payload)
     else if (3 <=? length topic_parts)%nat && bool_decide (topic_parts !! 2 = Some "status") then
       device_id ← item topic_parts 1;
       create_task env (DeviceStatusTask device_id payload)
     else if (3 <=? length topic_parts)%nat && bool_decide (topic_parts !! 2 = Some "config") then
       device_id ← item topic_parts 1;
       create_task env (DeviceConfigTask device_id payload)
     else mret tt)
    (fun e =>
       logger ERROR "Error processing MQTT message";;
       count_failed).

(** The point [store_in_influxdb] builds: numeric metadata become
    fields, string metadata become tags, anything else is left out. *)
Definition to_point (sensor_data : SensorData) : Point :=
  let p :=
    at_time (timestamp sensor_data)
      (field "data_hash" (opt_str (data_hash sensor_data))
         (field "quality" (JNum (quality sensor_data))
            (field "value" (JNum (value sensor_data))
               (tag "sensor_type" (sensor_type sensor_data)
                  (tag "device_id" (device_id sensor_data)
                     (point "sensor_reading")))))) in
  fold_left
    (fun p kv =>
       if is_number (snd kv) then field ("meta_" +:+ fst kv) (snd kv) p
       else match snd kv with
            | JStr v => tag ("meta_" +:+ fst kv) v p
            | _ => p
            end)
    (metadata sensor_data) p.

Definition store_in_influxdb (env : Env) (sensor_data : SensorData) : M unit :=
  try_except
    (let p := to_point sensor_data in
     ext_call env InfluxWrite;;
     modify (fun s => set_influx_points (influx_points (world s) ++ [p]) s))
    (fun e =>
       logger ERROR "Error storing in InfluxDB";;
       raise e).

(** The record [publish_to_kafka] hands to the producer: the key is
    [data.get('device_id')]. *)
Definition kafka_record (topic : string) (data : list (string * JVal)) : KafkaRecord :=
  {| k_topic := topic; k_key := dict_lookup "device_id" data; k_value := data |}.

Definition publish_to_kafka (env : Env) (topic : string)
    (data : list (string * JVal)) : M unit :=
  try_except
    (ext_call env KafkaSend;;
     modify (fun s => set_kafka_log (kafka_log (world s) ++ [kafka_record topic data]) s))
    (fun e =>
       logger ERROR "Error publishing to Kafka";;
       raise e).

(** [redis.hset(key, mapping=...)]: the fields given replace or extend
    those the hash already has. *)
Definition hset (env : Env) (key : string) (mapping : gmap string JVal) : M unit :=
  ext_call env RedisHset;;
  modify (fun s =>
    set_redis_hashes
      (<[key := mapping ∪ default ∅ (redis_hashes (world s) !! key)]>
         (redis_hashes (world s))) s).

Definition expire (env : Env) (key : string) (seconds : nat) : M unit :=
  ext_call env RedisExpire;;
  modify (fun s => set_redis_ttl (<[key := seconds]> (redis_ttl (world s))) s).

(** The key and the fields of the latest-reading entry. *)
Definition latest_key (sensor_data : SensorData) : string :=
  "latest:" +:+ device_id sensor_data +:+ ":" +:+ sensor_type sensor_data.

Definition latest_mapping (sensor_data : SensorData) : gmap string JVal :=
  list_to_map
    [("value", JNum (value sensor_data));
     ("unit", JStr (unit_ sensor_data));
     ("quality", JNum (quality sensor_data));
     ("timestamp", JStr (isoformat (timestamp sensor_data)));
     ("data_hash", opt_str (data_hash sensor_data))].

Definition cache_latest_reading (env : Env) (sensor_data : SensorData) : M unit :=
  try_except
    (let key := latest_key sensor_data in
     hset env key (latest_mapping sensor_data);;
     expire env key 3600)
    (fun e => logger ERROR "Error caching reading").

(** The audit document of a reading. *)
Definition metadata_document (env : Env) (sensor_data : SensorData)
    : list (string * JVal) :=
  [("device_id", JStr (device_id sensor_data));
   ("sensor_type", JStr (sensor_type sensor_data));
   ("timestamp", JDate (timestamp sensor_data));
   ("data_hash", opt_str (data_hash sensor_data));
   ("metadata", JObj (metadata sensor_data));
   ("stored_at", JDate (now env))].

Definition store_metadata_in_mongodb (env : Env) (sensor_data : SensorData) : M unit :=
  try_except
    (let document := metadata_document env sensor_data in
     ext_call env MongoInsert;;
     modify (fun s =>
       set_mongo_sensor_metadata (mongo_sensor_metadata (world s) ++ [document]) s))
    (fun e => logger ERROR "Error storing metadata in MongoDB").

(** Modelled from the spec: the constructor of [SensorData], a pydantic
    model whose file is not part of the sources.  It accepts a numeric
    value, a string unit, a numeric quality and a mapping as metadata,
    and raises a validation error otherwise; [data_hash] starts absent. *)
Definition make_sensor_data (device_id sensor_type : string) (timestamp : datetime)
    (value unit_ quality metadata : JVal) : Res SensorData :=
  match value, unit_, quality, metadata with
  | JNum v, JStr u, JNum q, JObj m =>
      Ret {| device_id := device_id; sensor_type := sensor_type;
             timestamp := timestamp; value := v; unit_ := u; quality := q;
             metadata := m; data_hash := None |}
  | _, _, _, _ => Exn ValidationError
  end.

(** The four writes of [process_sensor_data], in its order. *)
Definition sink_fanout (env : Env) (sensor_data : SensorData) : M unit :=
  store_in_influxdb env sensor_data;;
  publish_to_kafka env "sensor-data" (to_dict sensor_data);;
  cache_latest_reading env sensor_data;;
  store_metadata_in_mongodb env sensor_data.

(** The first statements of [process_sensor_data]: decode the payload
    and build the reading.  They touch no state. *)
Definition build_reading (env : Env) (device_id sensor_type payload : string)
    : Res SensorData :=
  data ← loads payload;
  data ← as_dict data;
  timestamp ← match dict_get "timestamp" (JStr (isoformat (now env))) data with
              | JStr iso =>
                  match fromisoformat iso with
                  | Some t => Ret t
                  | None => Exn ValueError
                  end
              | _ => Exn TypeError
              end;
  value ← match dict_lookup "value" data with
          | Some v => Ret v
          | None => Exn (KeyError "value")
          end;
  make_sensor_data device_id sensor_type timestamp value
    (dict_get "unit" (JStr "") data)
    (dict_get "quality" (JNum 1) data)
    (dict_get "metadata" (JObj []) data).

(** [process_sensor_data].  The local variable [sensor_data] is kept
    in [frame], so that what became of the reading can be read from the
    final state. *)
Definition process_sensor_data (env : Env) (device_id sensor_type payload : string)
    : M unit :=
  modify (set_frame None);;
  try_except
    (sensor_data ← lift (build_reading env device_id sensor_type payload);
     modify (set_frame (Some sensor_data));;
     let '(is_valid, validation_errors) := validate_sensor_reading sensor_data in
     if negb is_valid then
       logger WARNING "Invalid sensor data"
     else
       let sensor_data :=
         with_data_hash (Some (hash_sensor_data sensor_data)) sensor_data in
       modify (set_frame (Some sensor_data));;
       sink_fanout env sensor_data;;
       modify (fun s => set_messages_processed (messages_processed (svc s) + 1) s);;
       modify (fun s => set_devices_active ({[device_id]} ∪ devices_active (svc s)) s);;
       logger DEBUG "Processed sensor data")
    (fun e =>
       logger ERROR "Error processing sensor data";;
       count_failed).

(** The fields stored for a device status. *)
Definition status_mapping (env : Env) (data : list (string * JVal)) : gmap string JVal :=
  list_to_map
    [("status", dict_get "status" (JStr "unknown") data);
     ("battery_level", dict_get "battery_level" (JNum 0) data);
     ("signal_strength", dict_get "signal_strength" (JNum 0) data);
     ("last_seen", JStr (isoformat (now env)));
     ("firmware_version", dict_get "firmware_version" (JStr "") data);
     ("ip_address", dict_get "ip_address" (JStr "") data)].

Definition process_device_status (env : Env) (device_id payload : string) : M unit :=
  try_except
    (data ← lift (loads payload);
     data ← lift (as_dict data);
     hset env ("device_status:" +:+ device_id) (status_mapping env data);;
     publish_to_kafka env "device-status"
       (dict_merge [("device_id", JStr device_id);
                    ("timestamp", JStr (isoformat (now env)))] data);;
     logger DEBUG "Updated device status")
    (fun e => logger ERROR "Error processing device status").

(** [process_device_config]: an upsert keyed by the device. *)
Definition process_device_config (env : Env) (device_id payload : string) : M unit :=
  try_except
    (data ← lift (loads payload);
     ext_call env MongoUpdate;;
     modify (fun s =>
       set_mongo_device_configs
         (<[device_id := [("device_id", JStr device_id); ("config", data);
                          ("updated_at", JDate (now env))]]>
            (mongo_device_configs (world s))) s);;
     logger DEBUG "Updated device config")
    (fun e => logger ERROR "Error processing device config").

(** [processed / (processed + failed)], [0] for an empty window.  The
    float Python computes is kept as the exact quotient. *)
Definition success_rate (processed failed : nat) : Q :=
  if (0 <? processed + failed)%nat
  then (Z.of_nat processed # Pos.of_nat (processed + failed))%Q
  else 0%Q.

(** [redis.set(key, value, ex=seconds)]. *)
Definition redis_set (env : Env) (key : string) (v : Stats) (seconds : nat) : M unit :=
  ext_call env RedisSet;;
  modify (fun s => set_redis_strings (<[key := v]> (redis_strings (world s))) s);;
  modify (fun s => set_redis_ttl (<[key := seconds]> (redis_ttl (world s))) s).

(** One turn of the loop of [run_statistics_reporter], entered after
    its sixty seconds of sleep. *)
Definition report_tick (env : Env) : M unit :=
  try_except
    (stats ← gets (fun s =>
       {| s_timestamp := isoformat (now env);
          s_messages_processed := messages_processed (svc s);
          s_messages_failed := messages_failed (svc s);
          s_active_devices := size (devices_active (svc s));
          s_success_rate :=
            success_rate (messages_processed (svc s)) (messages_failed (svc s)) |});
     redis_set env "ingestion_stats" stats 3600;;
     logger INFO "Stats";;
     modify (set_messages_processed 0);;
     modify (set_messages_failed 0);;
     modify (set_devices_active ∅))
    (fun e => logger ERROR "Error reporting statistics").

(** [run_statistics_reporter], one environment per turn of its loop. *)
Fixpoint run_statistics_reporter (ticks : list Env) : M unit :=
  match ticks with
  | [] => mret tt
  | env :: rest =>
      r ← gets (fun s => running (svc s));
      if (r : bool) then report_tick env;; run_statistics_reporter rest
      else mret tt
  end.

(** The event loop runs a queued coroutine. *)
Definition run_task (env : Env) (t : Task) : M unit :=
  match t with
  | SensorDataTask d ty payload => process_sensor_data env d ty payload
  | DeviceStatusTask d payload => process_device_status env d payload
  | DeviceConfigTask d payload => process_device_config env d payload
  | StatsReporterTask => run_statistics_reporter [env]
  end.

(** A message arrives: the callback runs, then the event loop runs the
    coroutines the callback queued. *)
Definition deliver (env : Env) (topic payload : string) : M unit :=
  before ← gets (fun s => tasks (world s));
  on_mqtt_message env topic payload;;
  after ← gets (fun s => tasks (world s));
  modify (set_tasks before);;
  for_each (drop (length before) after) (run_task env).

End Ingestion.

(** ** The fingerprint *)

Module Crypto.
Section Fingerprint.

(** The digest applied to the serialised canonical form (a SHA-256 in
    hexadecimal, say); any function will do for what follows. *)
Variable digest : list (string * JVal) -> string.

(** Modelled from the spec: the canonical form of a reading, part of
    [utils.crypto], which the sources do not include.  It holds the
    five fields [deviceId], [sensorType], [timestamp], [value] and
    [unit] under their keys in sorted order, and nothing else. *)
Definition canonical (r : SensorData) : list (string * JVal) :=
  [("device_id", JStr (device_id r)); ("sensor_type", JStr (sensor_type r));
   ("timestamp", JDate (timestamp r)); ("unit", JStr (unit_ r));
   ("value", JNum (value r))].

(** Modelled from the spec: [utils.crypto.hash_sensor_data], which the
    sources do not include: a deterministic hash over the canonical
    form of the reading. *)
Definition hash_sensor_data (r : SensorData) : string := digest (canonical r).

End Fingerprint.
End Crypto.

(** ** Collaborators and environments for the worked examples *)

Module Sample.

(** [json.loads] on the payloads the examples use; any other payload is
    not JSON.  The single quotes stand for the double quotes of JSON. *)
Definition json_loads (payload : string) : option JVal :=
  if String.eqb payload "{'value': 450, 'unit': 'ppm'}" then
    Some (JObj [("value", JNum 450); ("unit", JStr "ppm")])
  else if String.eqb payload "{'unit': 'ppm', 'value': 450}" then
    Some (JObj [("unit", JStr "ppm"); ("value", JNum 450)])
  else if String.eqb payload "{'value': -5}" then
    Some (JObj [("value", JNum (-5))])
  else if String.eqb payload "{'status': 'online'}" then
    Some (JObj [("status", JStr "online")])
  else None.

(** Timestamps of the examples are decimal digits of seconds. *)
Definition fromisoformat (iso : string) : option datetime :=
  if String.eqb iso "60" then Some 60 else
  if String.eqb iso "120" then Some 120 else None.
Definition isoformat (t : datetime) : string :=
  if Nat.eqb t 60 then "60" else if Nat.eqb t 120 then "120" else "0".

(** Modelled from the spec: [utils.validation.validate_sensor_reading],
    which the sources do not include, for the one sensor type whose
    bounds the spec gives ([co2], 300 to 5000): the value must lie
    within the bounds and the quality within [0, 1]; a type without
    bounds fails. *)
Definition validate_sensor_reading (r : SensorData) : bool * list string :=
  if String.eqb (sensor_type r) "co2" then
    let range := if Qle_bool 300 (value r) && Qle_bool (value r) 5000
                 then [] else ["out_of_range"] in
    let qual := if Qle_bool 0 (quality r) && Qle_bool (quality r) 1
                then [] else ["invalid_quality"] in
    (bool_decide (range ++ qual = []), range ++ qual)
  else (false, ["unknown_sensor_type"]).

Definition digest (canon : list (string * JVal)) : string :=
  match canon with
  | (_, JStr d) :: _ => "sha256:" +:+ d
  | _ => "sha256:"
  end.

Definition no_faults : Env :=
  {| now := 60; fails := fun _ => false; connack_rc := 0 |}.

(** The environment in which exactly the call [c] raises. *)
Definition failing (c : ExtCall) : Env :=
  {| now := 60; fails := fun c' => bool_decide (c' = c); connack_rc := 0 |}.

Definition reading : SensorData :=
  {| device_id := "dev1"; sensor_type := "co2"; timestamp := 60; value := 450;
     unit_ := "ppm"; quality := 1; metadata := []; data_hash := Some "sha256:dev1" |}.

Definition built : SensorData := with_data_hash None reading.

(** [process_sensor_data] for device [dev1] and sensor [co2] on a
    service just constructed. *)
Definition process (env : Env) (payload : string) : Res unit * State :=
  process_sensor_data json_loads fromisoformat isoformat validate_sensor_reading
    (Crypto.hash_sensor_data digest) env "dev1" "co2" payload init_state.

(** A service at the end of a window with ten messages processed, two
    failed and two devices seen. *)
Definition busy : State :=
  set_devices_active ({[ "dev1" ]} ∪ {[ "dev2" ]})
    (set_messages_failed 2 (set_messages_processed 10 init_state)).

End Sample.

(** ** Vocabulary of the statements *)

(** A computation that, when it raises, raises an [Exception], which an
    [except Exception] clause catches. *)
Definition only_exceptions {A : Type} (m : M A) : Prop :=
  forall s e s', m s = (Exn e, s') -> is_exception e = true.

(** A computation that always returns. *)
Definition returns {A : Type} (m : M A) : Prop :=
  forall s, exists a s', m s = (Ret a, s').

(** The connection steps of [initialize], in its order. *)
Definition connect_steps : list ExtCall :=
  [InfluxConnect; RedisPing; MongoPing; KafkaInit; MqttConnect].

(** A service just constructed, in any world. *)
Definition fresh (w : World) : State := {| svc := init_service; world := w |}.

(** What the four stores hold. *)
Definition sinks_of (s : State) :=
  (influx_points (world s), kafka_log (world s), redis_hashes (world s),
   redis_ttl (world s), mongo_sensor_metadata (world s)).

(** A failure of the time-series write or of the stream-bus write. *)
Definition fanout_failed (env : Env) : bool :=
  fails env InfluxWrite || fails env KafkaSend.

(** The external calls made between two states. *)
Definition new_calls (before after : State) : list ExtCall :=
  drop (length (calls (world before))) (calls (world after)).

(** The reset at the end of a turn of the reporter. *)
Definition clear_counts (s : State) : State :=
  set_devices_active ∅ (set_messages_failed 0 (set_messages_processed 0 s)).

(** The snapshot a turn of the reporter builds from the state it starts in. *)
Definition snapshot (isoformat : datetime -> string) (env : Env) (s : State) : Stats :=
  {| s_timestamp := isoformat (now env);
     s_messages_processed := messages_processed (svc s);
     s_messages_failed := messages_failed (svc s);
     s_active_devices := size (devices_active (svc s));
     s_success_rate := success_rate (messages_processed (svc s)) (messages_failed (svc s)) |}.

(** The state with [p] more processed, [f] more failed and the devices
    [D] also active. *)
Definition shift_counts (p f : nat) (D : gset string) (s : State) : State :=
  set_devices_active (devices_active (svc s) ∪ D)
    (set_messages_failed (messages_failed (svc s) + f)
       (set_messages_processed (messages_processed (svc s) + p) s)).

(** A computation that does not look at the counters: with the counters
    shifted it does the same, and leaves them shifted. *)
Definition oblivious {A : Type} (m : M A) : Prop :=
  forall p f D s, m (shift_counts p f D s) = (fst (m s), shift_counts p f D (snd (m s))).

(** The coroutines of a window run one after the other, whatever each
    one's outcome. *)
Fixpoint run_window (run : Env -> Task -> M unit) (window : list (Env * Task))
    (s : State) : State :=
  match window with
  | [] => s
  | (env, t) :: rest => run_window run rest (snd (run env t s))
  end.

(** Everything written to the four stores between two states carries
    the hash [h]: each new time-series point, stream record and audit
    document, and each cache entry that was added or changed. *)
Definition carries_hash (h : string) (before after : State) : Prop :=
  Forall (fun p => dict_lookup "data_hash" (fields p) = Some (JStr h))
    (drop (length (influx_points (world before))) (influx_points (world after)))
  /\ Forall (fun rec => dict_lookup "data_hash" (k_value rec) = Some (JStr h))
       (drop (length (kafka_log (world before))) (kafka_log (world after)))
  /\ Forall (fun doc => dict_lookup "data_hash" doc = Some (JStr h))
       (drop (length (mongo_sensor_metadata (world before)))
          (mongo_sensor_metadata (world after)))
  /\ (forall key entry,
        redis_hashes (world after) !! key = Some entry ->
        redis_hashes (world before) !! key <> Some entry ->
        entry !! "data_hash" = Some (JStr h)).

(** ** Further vocabulary *)

(** [sep.join(parts)]. *)
Fixpoint join (sep : ascii) (parts : list string) : string :=
  match parts with
  | [] => EmptyString
  | [p] => p
  | p :: rest => p +:+ String sep (join sep rest)
  end.

(** How many times a character occurs in a string. *)
Fixpoint occurrences (c : ascii) (s : string) : nat :=
  match s with
  | EmptyString => 0
  | String c' rest => (if Ascii.eqb c' c then 1 else 0) + occurrences c rest
  end.

(** The tag a metadata entry gives, when its value is a string. *)
Definition metadata_tag (kv : string * JVal) : option (string * string) :=
  match snd kv with
  | JStr v => Some ("meta_" +:+ fst kv, v)
  | _ => None
  end.

(** The field a metadata entry gives, when its value is a number. *)
Definition metadata_field (kv : string * JVal) : option (string * JVal) :=
  if is_number (snd kv) then Some ("meta_" +:+ fst kv, snd kv) else None.

(** What one coroutine may do to the statistics: count one message as
    processed and its device as active, or count at most one failure, or
    (the reporter) clear everything. *)
Definition counted (s s' : State) : Prop :=
  (exists d, messages_processed (svc s') = messages_processed (svc s) + 1
             /\ messages_failed (svc s') = messages_failed (svc s)
             /\ devices_active (svc s') = {[d]} ∪ devices_active (svc s))
  \/ (messages_processed (svc s') = messages_processed (svc s)
      /\ devices_active (svc s') = devices_active (svc s)
      /\ (messages_failed (svc s') = messages_failed (svc s)
          \/ messages_failed (svc s') = messages_failed (svc s) + 1))
  \/ (messages_processed (svc s') = 0 /\ messages_failed (svc s') = 0
      /\ devices_active (svc s') = ∅).

(** What the three stores kept as lists held before is the beginning of
    what they hold after. *)
Definition appended (s s' : State) : Prop :=
  influx_points (world s) `prefix_of` influx_points (world s')
  /\ kafka_log (world s) `prefix_of` kafka_log (world s')
  /\ mongo_sensor_metadata (world s) `prefix_of` mongo_sensor_metadata (world s').

(** The connection handles and the running flag of the service. *)
Definition handles (s : State) :=
  (mqtt_client (svc s), kafka_producer (svc s), influxdb_client (svc s),
   redis_client (svc s), mongodb_client (svc s), running (svc s)).

(** ** A sample run *)

Module Demo.

(** The coroutines with the sample collaborators. *)
Definition step : Env -> Task -> M unit :=
  run_task Sample.json_loads Sample.fromisoformat Sample.isoformat
    Sample.validate_sensor_reading (Crypto.hash_sensor_data Sample.digest).

(** Two readings, the second of which fails at the stream bus. *)
Definition window : list (Env * Task) :=
  [(Sample.no_faults, SensorDataTask "dev1" "co2" "{'value': 450, 'unit': 'ppm'}");
   (Sample.failing KafkaSend, SensorDataTask "dev2" "co2" "{'value': 450, 'unit': 'ppm'}")].

(** A broker that accepts the connection and answers it with return
    code 5 (not authorised). *)
Definition refused : Env :=
  {| now := 60; fails := fun _ => false; connack_rc := 5 |}.

(** A status payload that names another device than its topic. *)
Definition relayed (payload : string) : option JVal :=
  if String.eqb payload "{'device_id': 'gw7', 'status': 'online'}" then
    Some (JObj [("device_id", JStr "gw7"); ("status", JStr "online")])
  else Sample.json_loads payload.

End Demo.

(** No client of the service is open, and the MQTT client, if there is
    one, is disconnected. *)
Definition all_closed (s : State) : Prop :=
  kafka_producer (svc s) <> Some Open /\ influxdb_client (svc s) <> Some Open
  /\ redis_client (svc s) <> Some Open /\ mongodb_client (svc s) <> Some Open
  /\ (connected <$> mqtt_client (svc s)) <> Some true.

(** The calls that must succeed for [run] to reach its main loop. *)
Definition startup_calls : list ExtCall := connect_steps ++ [CreateTask].

(** The document [process_device_config] upserts. *)
Definition config_document (env : Env) (device : string) (data : JVal)
    : list (string * JVal) :=
  [("device_id", JStr device); ("config", data); ("updated_at", JDate (now env))].

(** The five fields of a latest-reading entry. *)
Definition latest_fields : list string :=
  ["value"; "unit"; "quality"; "timestamp"; "data_hash"].

(** [on_mqtt_disconnect]: the callback only logs; it neither reconnects
    nor touches the service. *)
Definition on_mqtt_disconnect (rc : nat) : M unit :=
  if negb (Nat.eqb rc 0) then
    logger WARNING "Unexpected MQTT disconnection"
  else
    logger INFO "Disconnected from MQTT broker".

(** A value redis-py accepts as a hash field: a string or a number that
    is not a boolean. *)
Definition redis_value (v : JVal) : bool :=
  match v with
  | JStr _ | JNum _ => true
  | _ => false
  end.

(** ** Shutdown with close calls that may raise

    [shutdown] above keeps the five close calls as updates of the
    handles.  In the source they are calls on the clients, outside any
    [try]; here each goes through an oracle of its own, the way the
    other client calls go through [fails].  The two descriptions agree
    when no close call raises. *)

Module Teardown.

(** The five calls [shutdown] makes on the clients, in its order. *)
Inductive CloseCall : Type :=
| MqttDisconnect | KafkaClose | InfluxClose | RedisClose | MongoClose.

Definition close_order : list CloseCall :=
  [MqttDisconnect; KafkaClose; InfluxClose; RedisClose; MongoClose].

(** The place of a call in that order. *)
Definition rank (c : CloseCall) : nat :=
  match c with
  | MqttDisconnect => 0
  | KafkaClose => 1
  | InfluxClose => 2
  | RedisClose => 3
  | MongoClose => 4
  end.

(** The exception a close call raises, kept as a connection error of
    its client. *)
Definition close_error (c : CloseCall) : Error :=
  match c with
  | MqttDisconnect => ConnectError "mqtt"
  | KafkaClose => ConnectError "kafka"
  | InfluxClose => ConnectError "influxdb"
  | RedisClose => ConnectError "redis"
  | MongoClose => ConnectError "mongodb"
  end.

(** A close call: it raises when [raises] says so and returns
    otherwise. *)
Definition close_call (raises : CloseCall -> bool) (c : CloseCall) : M unit :=
  fun s => if raises c then (Exn (close_error c), s) else (Ret tt, s).

(** [shutdown], statement by statement: each client that exists is
    closed by a call that may raise, and nothing catches what it
    raises. *)
Definition shutdown (raises : CloseCall -> bool) : M unit :=
  logger INFO "Shutting down IoT Ingestion Service...";;
  modify (set_running false);;
  m ← gets (fun s => mqtt_client (svc s));
  match m with
  | Some c =>
      close_call raises MqttDisconnect;;
      modify (set_mqtt_client
                (Some {| connected := false; loop_started := loop_started c;
                         subscriptions := subscriptions c |}))
  | None => mret tt
  end;;
  k ← gets (fun s => kafka_producer (svc s));
  match k with
  | Some _ => close_call raises KafkaClose;; modify (set_kafka_producer (Some Closed))
  | None => mret tt
  end;;
  i ← gets (fun s => influxdb_client (svc s));
  match i with
  | Some _ => close_call raises InfluxClose;; modify (set_influxdb_client (Some Closed))
  | None => mret tt
  end;;
  r ← gets (fun s => redis_client (svc s));
  match r with
  | Some _ => close_call raises RedisClose;; modify (set_redis_client (Some Closed))
  | None => mret tt
  end;;
  g ← gets (fun s => mongodb_client (svc s));
  match g with
  | Some _ => close_call raises MongoClose;; modify (set_mongodb_client (Some Closed))
  | None => mret tt
  end;;
  logger INFO "IoT Ingestion Service shutdown complete".

(** [run] with that [shutdown] in its [finally] clause. *)
Definition run (env : Env) (raises : CloseCall -> bool) (n : nat) : M unit :=
  try_finally
    (try_except
       (initialize env;;
        loop_start env;;
        create_task env StatsReporterTask;;
        logger INFO "IoT Ingestion Service running...";;
        keep_running n;;
        cancel_stats_task)
       (fun e =>
          logger ERROR "IoT Ingestion Service error";;
          raise e))
    (shutdown raises).

(** [if self.client:] on a handle. *)
Definition is_some {A : Type} (c : option A) : bool :=
  match c with
  | Some _ => true
  | None => false
  end.

(** The client a close call closes exists. *)
Definition has_client (c : CloseCall) (s : State) : bool :=
  match c with
  | MqttDisconnect => is_some (mqtt_client (svc s))
  | KafkaClose => is_some (kafka_producer (svc s))
  | InfluxClose => is_some (influxdb_client (svc s))
  | RedisClose => is_some (redis_client (svc s))
  | MongoClose => is_some (mongodb_client (svc s))
  end.

(** The handle holds a client that has not been closed. *)
Definition is_open (c : option Conn) : bool :=
  match c with
  | Some Open => true
  | _ => false
  end.

(** The client a close call closes is open (for the MQTT client:
    connected). *)
Definition client_open (c : CloseCall) (s : State) : bool :=
  match c with
  | MqttDisconnect =>
      match mqtt_client (svc s) with
      | Some m => connected m
      | None => false
      end
  | KafkaClose => is_open (kafka_producer (svc s))
  | InfluxClose => is_open (influxdb_client (svc s))
  | RedisClose => is_open (redis_client (svc s))
  | MongoClose => is_open (mongodb_client (svc s))
  end.

(** The first close call, in the order of [shutdown], whose client
    exists and which raises. *)
Definition first_raising (raises : CloseCall -> bool) (s : State) : option CloseCall :=
  List.find (fun c => has_client c s && raises c) close_order.

End Teardown.

(** * Properties *)

Example split_sensor_topic :
  split slash "carbon/sensors/dev1/co2/data" = ["carbon"; "sensors"; "dev1"; "co2"; "data"].
Proof. reflexivity. Qed.

Example split_empty_segments : split slash "a//b/" = ["a"; ""; "b"; ""].
Proof. reflexivity. Qed.

(** ** Reasoning about the monad *)

Lemma bind_unfold {A B : Type} (m : M A) (k : A -> M B) (s : State) :
  (m ≫= k) s = match m s with
               | (Ret a, s') => k a s'
               | (Exn e, s') => (Exn e, s')
               end.
Proof. reflexivity. Qed.

Lemma only_exceptions_ret {A : Type} (a : A) : only_exceptions (mret a).
Proof. intros s e s' H. discriminate H. Qed.

Lemma only_exceptions_raise {A : Type} (e : Error) :
  is_exception e = true -> only_exceptions (@raise A e).
Proof. intros He s e' s' H. injection H as <- _. exact He. Qed.

Lemma only_exceptions_bind {A B : Type} (m : M A) (k : A -> M B) :
  only_exceptions m -> (forall a, only_exceptions (k a)) -> only_exceptions (m ≫= k).
Proof.
  intros Hm Hk s e s'. rewrite bind_unfold.
  destruct (m s) as [[a | e0] s0] eqn:E.
  - apply Hk.
  - intros [= <- _]. exact (Hm _ _ _ E).
Qed.

Lemma only_exceptions_modify (f : State -> State) : only_exceptions (modify f).
Proof. intros s e s' H. discriminate H. Qed.

Lemma only_exceptions_gets {A : Type} (f : State -> A) : only_exceptions (gets f).
Proof. intros s e s' H. discriminate H. Qed.

Lemma only_exceptions_logger lvl msg : only_exceptions (logger lvl msg).
Proof. apply only_exceptions_modify. Qed.

Lemma only_exceptions_ext_call env c : only_exceptions (ext_call env c).
Proof.
  intros s e s'. unfold ext_call. destruct (fails env c); intros [= <- _].
  by destruct c.
Qed.

Lemma only_exceptions_item l i : only_exceptions (item l i).
Proof.
  unfold item. destruct (l !! i).
  - apply only_exceptions_ret.
  - by apply only_exceptions_raise.
Qed.

Lemma only_exceptions_try_except {A : Type} (body : M A) handler :
  only_exceptions body -> (forall e, only_exceptions (handler e)) ->
  only_exceptions (try_except body handler).
Proof.
  intros Hb Hh s e s'. unfold try_except.
  destruct (body s) as [[a | e0] s0] eqn:E; [discriminate |].
  rewrite (Hb _ _ _ E). apply Hh.
Qed.

Lemma only_exceptions_create_task env t : only_exceptions (create_task env t).
Proof.
  apply only_exceptions_bind; [apply only_exceptions_ext_call |].
  intros _. apply only_exceptions_modify.
Qed.

Lemma only_exceptions_for_each {A : Type} (xs : list A) body :
  (forall x, only_exceptions (body x)) -> only_exceptions (for_each xs body).
Proof.
  intros Hb. induction xs as [| x xs IH]; simpl.
  - apply only_exceptions_ret.
  - apply only_exceptions_bind; [apply Hb | intros _; exact IH].
Qed.

Create HintDb exn.
#[local] Hint Resolve only_exceptions_ret only_exceptions_modify only_exceptions_gets
  only_exceptions_logger only_exceptions_ext_call only_exceptions_item
  only_exceptions_create_task : exn.

(** Walks through a computation built from binds, conditionals and the
    primitives above. *)
Ltac only_exn :=
  repeat first
    [ solve [auto with exn]
    | apply only_exceptions_raise; reflexivity
    | apply only_exceptions_bind; [| intros ?]
    | apply only_exceptions_try_except; [| intros ?]
    | apply only_exceptions_for_each; intros ?
    | match goal with
      | |- only_exceptions (if ?b then _ else _) => destruct b
      | |- only_exceptions (match ?x with _ => _ end) => destruct x
      | |- only_exceptions (let (_, _) := ?x in _) => destruct x
      end ].

Lemma returns_bind {A B : Type} (m : M A) (k : A -> M B) :
  returns m -> (forall a, returns (k a)) -> returns (m ≫= k).
Proof.
  intros Hm Hk s. rewrite bind_unfold.
  destruct (Hm s) as (a & s' & ->). apply Hk.
Qed.

Lemma returns_modify (f : State -> State) : returns (modify f).
Proof. intros s. by eexists _, _. Qed.

Lemma returns_logger lvl msg : returns (logger lvl msg).
Proof. apply returns_modify. Qed.

(** [try ... except Exception] around a body that raises nothing worse,
    with a handler that returns, always returns. *)
Lemma try_except_returns {A : Type} (body : M A) handler :
  only_exceptions body -> (forall e, returns (handler e)) ->
  returns (try_except body handler).
Proof.
  intros Hb Hh s. unfold try_except.
  destruct (body s) as [[a | e] s'] eqn:E.
  - by eexists _, _.
  - rewrite (Hb _ _ _ E). apply Hh.
Qed.

Lemma returns_unit (m : M unit) : returns m -> forall s, fst (m s) = Ret tt.
Proof. intros H s. destruct (H s) as ([] & s' & ->). reflexivity. Qed.

Lemma on_mqtt_message_returns env topic payload :
  returns (on_mqtt_message env topic payload).
Proof.
  apply try_except_returns.
  - cbv zeta. only_exn.
  - intros e. apply returns_bind; [apply returns_logger |].
    intros _. apply returns_modify.
Qed.

Lemma on_mqtt_message_unrouted env topic payload st :
  let parts := split slash topic in
  parts !! 3 <> Some "data" -> parts !! 2 <> Some "status" ->
  parts !! 2 <> Some "config" ->
  on_mqtt_message env topic payload st = (Ret tt, st).
Proof.
  intros parts H3 Hs Hc. unfold on_mqtt_message, try_except. fold parts.
  rewrite !bool_decide_eq_false_2 by assumption.
  rewrite !andb_false_r. reflexivity.
Qed.

(** ** Symbolic execution *)

(** Reduces the monad and the field updates, and nothing else: strings,
    maps and sets stay as they are written. *)
Ltac reduce_state :=
  lazy beta iota zeta delta
    [try_except try_finally logger modify gets lift raise count_failed
     shutdown loop_start create_task on_mqtt_connect subscribe for_each topics
     mbind M_bind mret M_ret option_bind is_exception error_of fst snd negb Nat.eqb
     set_mqtt_client set_kafka_producer set_influxdb_client set_redis_client
     set_mongodb_client set_running set_messages_processed set_messages_failed
     set_devices_active set_influx_points set_kafka_log set_redis_hashes set_redis_ttl
     set_redis_strings set_mongo_sensor_metadata set_mongo_device_configs set_tasks
     set_calls set_log set_frame on_svc on_world fresh new_calls
     svc world mqtt_client kafka_producer influxdb_client redis_client mongodb_client
     running messages_processed messages_failed devices_active influx_points kafka_log
     redis_hashes redis_ttl redis_strings mongo_sensor_metadata mongo_device_configs
     tasks calls log frame].

(** Uses the known outcomes of the external calls that show in the goal. *)
Ltac use_flags :=
  repeat match goal with
         | H : fails ?e ?c = _ |- context [fails ?e ?c] => rewrite H
         end.

(** Enters [process_sensor_data] with the outcome [HB] of building the
    reading. *)
Ltac enter_task HB :=
  lazy beta delta [process_sensor_data lift]; rewrite HB; reduce_state.

(** Runs the sink writes and what follows them. *)
Ltac run_sinks :=
  lazy beta delta
    [sink_fanout store_in_influxdb publish_to_kafka cache_latest_reading
     store_metadata_in_mongodb hset expire redis_set ext_call];
  use_flags; reduce_state.

(** Compares the fields of the final state. *)
Ltac compare_fields :=
  rewrite <- ?app_assoc, ?drop_app_length, ?drop_all, ?app_nil_r, ?Nat.add_0_r;
  repeat match goal with |- _ /\ _ => split end.


(** ** The message callback *)

Lemma set_tasks_same (st : State) : set_tasks (tasks (world st)) st = st.
Proof. by destruct st as [sv []]. Qed.

Lemma on_mqtt_message_counts env topic payload st :
  fails env CreateTask = false ->
  messages_failed (svc (snd (on_mqtt_message env topic payload st)))
  = messages_failed (svc st).
Proof.
  intros F. unfold on_mqtt_message.
  destruct (split slash topic) as [| a [| b [| c [| d [| e rest]]]]];
    simpl; repeat case_bool_decide; simpl;
    destruct st as [[] []];
    lazy beta delta [create_task ext_call item]; simpl; rewrite ?F; reduce_state;
    reflexivity.
Qed.

(** C6 (as amended): whatever the subject, the callback returns normally,
    and it leaves the failure counter as it was unless queuing a
    coroutine raises.  A subject that triggers none of the three branches
    (such as [domain/unknown/x]) is dropped: the whole state is left as
    it was, so nothing is queued and no counter moves. *)
Theorem C6_unrouted_subject_dropped_silently env topic payload st :
  fst (on_mqtt_message env topic payload st) = Ret tt
  /\ (fails env CreateTask = false ->
      messages_failed (svc (snd (on_mqtt_message env topic payload st)))
      = messages_failed (svc st))
  /\ (split slash topic !! 3 <> Some "data" ->
      split slash topic !! 2 <> Some "status" ->
      split slash topic !! 2 <> Some "config" ->
      on_mqtt_message env topic payload st = (Ret tt, st)).
Proof.
  split; [| split].
  - apply returns_unit, on_mqtt_message_returns.
  - apply on_mqtt_message_counts.
  - apply on_mqtt_message_unrouted.
Qed.

Lemma C6_witness :
  fst (on_mqtt_message Sample.no_faults "domain/unknown/x" "{'value': 450}" init_state)
  = Ret tt
  /\ messages_failed
       (svc (snd (on_mqtt_message Sample.no_faults "domain/unknown/x" "{'value': 450}"
                    init_state)))
     = messages_failed (svc init_state)
  /\ on_mqtt_message Sample.no_faults "domain/unknown/x" "{'value': 450}" init_state
     = (Ret tt, init_state).
Proof.
  destruct (C6_unrouted_subject_dropped_silently Sample.no_faults "domain/unknown/x"
              "{'value': 450}" init_state) as (Hret & Hcount & Hdrop).
  split; [exact Hret | split].
  - apply Hcount. reflexivity.
  - apply Hdrop; simpl; discriminate.
Defined.

(** C6 as stated fails: on [domain/unknown/x] the failure counter is not
    incremented. *)
Lemma C6_counterexample :
  on_mqtt_message Sample.no_faults "domain/unknown/x" "{'value': 450}" init_state
  = (Ret tt, init_state)
  /\ messages_failed
       (svc (snd (on_mqtt_message Sample.no_faults "domain/unknown/x" "{'value': 450}"
                    init_state)))
     <> messages_failed (svc init_state) + 1.
Proof. split; [reflexivity | vm_compute; discriminate]. Qed.

(** C3: on a subject of the five-segment sensor shape the callback starts
    no sensor-data processing.  The first branch tests the fourth segment
    (the sensor type) against [data], so unless the sensor type is itself
    [data] (or the device is named [status] or [config]) the message
    falls through every branch and the state is left untouched. *)
Theorem C3_sensor_subject_not_dispatched env topic payload st a b dev ty :
  split slash topic = [a; b; dev; ty; "data"] ->
  ty <> "data" -> dev <> "status" -> dev <> "config" ->
  on_mqtt_message env topic payload st = (Ret tt, st)
  /\ tasks (world (snd (on_mqtt_message env topic payload st))) = tasks (world st).
Proof.
  intros E Hty Hs Hc.
  assert (on_mqtt_message env topic payload st = (Ret tt, st)) as R.
  { apply on_mqtt_message_unrouted; rewrite E; simpl; congruence. }
  split; [exact R | by rewrite R].
Qed.

Lemma C3_witness :
  on_mqtt_message Sample.no_faults "carbon/sensors/dev1/co2/data"
    "{'value': 450, 'unit': 'ppm'}" init_state = (Ret tt, init_state)
  /\ tasks (world (snd (on_mqtt_message Sample.no_faults "carbon/sensors/dev1/co2/data"
                          "{'value': 450, 'unit': 'ppm'}" init_state)))
     = tasks (world init_state).
Proof.
  apply (C3_sensor_subject_not_dispatched Sample.no_faults
           "carbon/sensors/dev1/co2/data" _ init_state "carbon" "sensors" "dev1" "co2");
    [reflexivity | discriminate ..].
Defined.

(** The one sensor subject the first branch does accept is the one whose
    sensor type is [data]. *)
Lemma sensor_subject_dispatched_when_type_is_data env topic payload st a b dev :
  split slash topic = [a; b; dev; "data"; "data"] ->
  fails env CreateTask = false ->
  tasks (world (snd (on_mqtt_message env topic payload st)))
  = tasks (world st) ++ [SensorDataTask dev "data" payload].
Proof.
  intros E Hf. unfold on_mqtt_message, try_except. rewrite E. simpl.
  unfold create_task, ext_call. rewrite bind_unfold, Hf. reflexivity.
Qed.

Section Status.

Variable json_loads : string -> option JVal.
Variable fromisoformat : string -> option datetime.
Variable isoformat : datetime -> string.
Variable validate_sensor_reading : SensorData -> bool * list string.
Variable hash_sensor_data : SensorData -> string.

Local Abbreviation deliver' :=
  (deliver json_loads fromisoformat isoformat validate_sensor_reading hash_sensor_data).

Lemma deliver_unrouted env topic payload st :
  split slash topic !! 3 <> Some "data" ->
  split slash topic !! 2 <> Some "status" ->
  split slash topic !! 2 <> Some "config" ->
  deliver' env topic payload st = (Ret tt, st).
Proof.
  intros H3 Hs Hc. unfold deliver.
  rewrite bind_unfold. simpl. rewrite bind_unfold.
  rewrite (on_mqtt_message_unrouted env topic payload st H3 Hs Hc).
  rewrite bind_unfold. simpl. rewrite bind_unfold. simpl.
  rewrite drop_all. simpl. by rewrite set_tasks_same.
Qed.

(** C4: a message on a subject of the four-segment status shape stores
    nothing.  The status branch tests the third segment (the device
    identifier) against [status], so unless the device is itself named
    [status] (or [config]) no branch is taken: delivering the message
    leaves the cache, and the rest of the state, as it was. *)
Theorem C4_status_subject_not_stored env topic payload st a b dev :
  split slash topic = [a; b; dev; "status"] ->
  dev <> "status" -> dev <> "config" ->
  deliver' env topic payload st = (Ret tt, st)
  /\ redis_hashes (world (snd (deliver' env topic payload st))) !! ("device_status:" +:+ dev)
     = redis_hashes (world st) !! ("device_status:" +:+ dev).
Proof.
  intros E Hs Hc.
  assert (deliver' env topic payload st = (Ret tt, st)) as R.
  { apply deliver_unrouted; rewrite E; simpl; congruence. }
  split; [exact R | by rewrite R].
Qed.

End Status.

Lemma C4_witness :
  deliver Sample.json_loads Sample.fromisoformat Sample.isoformat
    Sample.validate_sensor_reading (Crypto.hash_sensor_data Sample.digest)
    Sample.no_faults "carbon/devices/dev1/status" "{'status': 'online'}" init_state
  = (Ret tt, init_state)
  /\ redis_hashes
       (world (snd (deliver Sample.json_loads Sample.fromisoformat Sample.isoformat
                      Sample.validate_sensor_reading (Crypto.hash_sensor_data Sample.digest)
                      Sample.no_faults "carbon/devices/dev1/status" "{'status': 'online'}"
                      init_state)))
       !! ("device_status:" +:+ "dev1")
     = redis_hashes (world init_state) !! ("device_status:" +:+ "dev1").
Proof.
  apply (C4_status_subject_not_stored _ _ _ _ _ Sample.no_faults
           "carbon/devices/dev1/status" _ init_state "carbon" "devices" "dev1");
    [reflexivity | discriminate ..].
Defined.

(** ** Startup *)





(** When every connection succeeds the service does reach its main loop:
    [running] is set, the three subscriptions are made and the reporter
    is queued. *)
Lemma startup_succeeds env w :
  (forall c, fails env c = false) -> connack_rc env = 0 ->
  exists st1,
    (initialize env;; loop_start env;; create_task env StatsReporterTask) (fresh w)
    = (Ret tt, st1) /\
    running (svc st1) = true /\
    (subscriptions <$> mqtt_client (svc st1)) = Some topics /\
    tasks (world st1) = tasks w ++ [StatsReporterTask].
Proof.
  intros Hf Hrc. eexists.
  lazy beta delta [initialize loop_start create_task on_mqtt_connect ext_call].
  rewrite !Hf, Hrc. reduce_state.
  split; [reflexivity |]. reduce_state. repeat split.
Qed.

(** ** Processing a sensor reading *)

Lemma res_bind_unfold {A B : Type} (r : Res A) (k : A -> Res B) :
  (r ≫= k) = match r with
             | Ret a => k a
             | Exn e => Exn e
             end.
Proof. reflexivity. Qed.

(** Case analysis on an innermost scrutinee of the goal. *)
Ltac destruct_match :=
  match goal with
  | |- context [match ?x with _ => _ end] =>
      lazymatch x with
      | context [match _ with _ => _ end] => fail
      | _ => destruct x
      end
  end.

(** The metadata of a reading add [meta_] tags and fields after those
    the point has, and change nothing else. *)
Lemma metadata_fold (items : list (string * JVal)) (p : Point) :
  let q := fold_left
             (fun p kv =>
                if is_number (snd kv) then field ("meta_" +:+ fst kv) (snd kv) p
                else match snd kv with
                     | JStr v => tag ("meta_" +:+ fst kv) v p
                     | _ => p
                     end) items p in
  measurement q = measurement p /\ time q = time p
  /\ tags q = tags p ++ omap metadata_tag items
  /\ fields q = fields p ++ omap metadata_field items.
Proof.
  revert p. induction items as [| [k v] items IH]; intros p; simpl.
  - by rewrite !app_nil_r.
  - destruct (IH (if is_number v then field ("meta_" +:+ k) v p
                  else match v with
                       | JStr s => tag ("meta_" +:+ k) s p
                       | _ => p
                       end)) as (Hm & Ht & Htag & Hf).
    rewrite Hm, Ht, Htag, Hf. unfold metadata_tag, metadata_field. simpl.
    destruct v; simpl; rewrite <- ?app_assoc; done.
Qed.

(** A hashed reading gives a point, and stores that were written from
    it, that carry its hash. *)
Lemma carries_hash_sinks h st a b :
  sinks_of a = sinks_of b -> carries_hash h st a -> carries_hash h st b.
Proof.
  unfold sinks_of, carries_hash. intros [= E1 E2 E3 E4 E5].
  by rewrite E1, E2, E3, E5.
Qed.

Lemma to_point_data_hash r h :
  data_hash r = Some h -> dict_lookup "data_hash" (fields (to_point r)) = Some (JStr h).
Proof.
  intros Hh. unfold to_point.
  destruct (metadata_fold (metadata r)
              (at_time (timestamp r)
                 (field "data_hash" (opt_str (data_hash r))
                    (field "quality" (JNum (quality r))
                       (field "value" (JNum (value r))
                          (tag "sensor_type" (sensor_type r)
                             (tag "device_id" (device_id r)
                                (point "sensor_reading")))))))) as (_ & _ & _ & Hf).
  cbv zeta in Hf. rewrite Hf, Hh. reflexivity.
Qed.

Section Reading.

Variable json_loads : string -> option JVal.
Variable fromisoformat : string -> option datetime.
Variable isoformat : datetime -> string.
Variable validate_sensor_reading : SensorData -> bool * list string.
Variable hash_sensor_data : SensorData -> string.

Local Abbreviation build_reading' := (build_reading json_loads fromisoformat isoformat).
Local Abbreviation process_sensor_data' :=
  (process_sensor_data json_loads fromisoformat isoformat validate_sensor_reading
     hash_sensor_data).
Local Abbreviation sink_fanout' := (sink_fanout isoformat).

Lemma build_reading_exception env d ty payload e :
  build_reading' env d ty payload = Exn e -> is_exception e = true.
Proof.
  unfold build_reading, loads, as_dict, make_sensor_data.
  rewrite !res_bind_unfold.
  repeat (destruct_match; simpl; try discriminate);
    by intros [= <-].
Qed.

Lemma build_reading_fields env d ty payload r :
  build_reading' env d ty payload = Ret r ->
  data_hash r = None /\ device_id r = d /\ sensor_type r = ty.
Proof.
  unfold build_reading, loads, as_dict, make_sensor_data.
  rewrite !res_bind_unfold.
  repeat (destruct_match; simpl; try discriminate);
    by intros [= <-].
Qed.

(** C1 (as amended): for a reading that was built and passed validation,
    the four writes are attempted in the order time-series store, stream
    bus, cache, document store.  A failure of the cache write or of the
    document-store write is caught inside that write: the remaining
    writes are still attempted and the message counts as processed.  A
    failure of the time-series write or of the stream-bus write is
    re-raised: it leaves the fanout, the writes after it are not
    attempted, and [process_sensor_data] catches it and counts the
    message as failed.  So when the stream-bus write fails the
    time-series point has been written, and when the time-series write
    fails nothing is sent to the stream bus. *)
Theorem C1_sink_failures env d ty payload st r :
  build_reading' env d ty payload = Ret r ->
  fst (validate_sensor_reading r) = true ->
  let r' := with_data_hash (Some (hash_sensor_data r)) r in
  let out := process_sensor_data' env d ty payload st in
  (forall s, fst (sink_fanout' env r' s)
             = if fails env InfluxWrite then Exn (SinkError "influxdb")
               else if fails env KafkaSend then Exn (SinkError "kafka")
               else Ret tt)
  /\ fst out = Ret tt
  /\ new_calls st (snd out)
     = (if fails env InfluxWrite then [InfluxWrite]
        else if fails env KafkaSend then [InfluxWrite; KafkaSend]
        else [InfluxWrite; KafkaSend; RedisHset]
             ++ (if fails env RedisHset then [] else [RedisExpire])
             ++ [MongoInsert])
  /\ influx_points (world (snd out))
     = influx_points (world st) ++ (if fails env InfluxWrite then [] else [to_point r'])
  /\ kafka_log (world (snd out))
     = kafka_log (world st)
       ++ (if fanout_failed env then [] else [kafka_record "sensor-data" (to_dict r')])
  /\ redis_hashes (world (snd out))
     = (if fanout_failed env || fails env RedisHset then redis_hashes (world st)
        else <[latest_key r' := latest_mapping isoformat r'
                                ∪ default ∅ (redis_hashes (world st) !! latest_key r')]>
               (redis_hashes (world st)))
  /\ mongo_sensor_metadata (world (snd out))
     = mongo_sensor_metadata (world st)
       ++ (if fanout_failed env || fails env MongoInsert then []
           else [metadata_document env r'])
  /\ messages_failed (svc (snd out))
     = messages_failed (svc st) + (if fanout_failed env then 1 else 0)
  /\ messages_processed (svc (snd out))
     = messages_processed (svc st) + (if fanout_failed env then 0 else 1).
Proof.
  intros HB HV r' out. subst out.
  destruct (validate_sensor_reading r) as [v errs] eqn:EV. simpl in HV. subst v.
  unfold fanout_failed.
  split.
  { intros s.
    destruct (fails env InfluxWrite) eqn:F1; [run_sinks; reflexivity |].
    destruct (fails env KafkaSend) eqn:F2; [run_sinks; reflexivity |].
    destruct (fails env RedisHset) eqn:F3;
    destruct (fails env MongoInsert) eqn:F4;
    try destruct (fails env RedisExpire) eqn:F5; run_sinks; reflexivity. }
  destruct st as [[] []].
  enter_task HB. rewrite EV. reduce_state. fold r'.
  destruct (fails env InfluxWrite) eqn:F1;
    [run_sinks; compare_fields; reflexivity |].
  destruct (fails env KafkaSend) eqn:F2;
    [run_sinks; compare_fields; reflexivity |].
  destruct (fails env RedisHset) eqn:F3;
    destruct (fails env MongoInsert) eqn:F4;
    try destruct (fails env RedisExpire) eqn:F5;
    run_sinks; compare_fields; reflexivity.
Qed.

Lemma with_data_hash_reset r h :
  data_hash r = None -> with_data_hash None (with_data_hash h r) = r.
Proof. destruct r. simpl. by intros ->. Qed.

Lemma with_data_hash_none r : data_hash r = None -> with_data_hash None r = r.
Proof. destruct r. simpl. by intros ->. Qed.

(** C5 (as amended): a reading that fails validation is dropped before
    any sink: no external call is made, the stores are unchanged, the
    reading gets no hash, and a warning is logged.  The service object is
    left as it was, so neither the failed-message counter nor the
    processed counter moves. *)
Theorem C5_invalid_reading_dropped env d ty payload st r :
  build_reading' env d ty payload = Ret r ->
  fst (validate_sensor_reading r) = false ->
  let out := process_sensor_data' env d ty payload st in
  fst out = Ret tt
  /\ new_calls st (snd out) = []
  /\ sinks_of (snd out) = sinks_of st
  /\ svc (snd out) = svc st
  /\ frame (world (snd out)) = Some r /\ data_hash r = None
  /\ log (world (snd out)) = log (world st) ++ [(WARNING, "Invalid sensor data")].
Proof.
  intros HB HV out. subst out.
  destruct (validate_sensor_reading r) as [v errs] eqn:EV. simpl in HV. subst v.
  pose proof (build_reading_fields _ _ _ _ _ HB) as (Hh & _).
  destruct st as [[] []]. unfold sinks_of.
  enter_task HB. rewrite EV. reduce_state. compare_fields; first [assumption | reflexivity].
Qed.

Lemma sink_fanout_carries_hash env r h st :
  data_hash r = Some h -> carries_hash h st (snd (sink_fanout' env r st)).
Proof.
  intros Hh. pose proof (to_point_data_hash r h Hh) as Hp.
  assert (dict_lookup "data_hash" (to_dict r) = Some (JStr h)) as Hk
    by (unfold to_dict; simpl; by rewrite Hh).
  assert (forall env0, dict_lookup "data_hash" (metadata_document env0 r) = Some (JStr h))
    as Hm by (intros env0; unfold metadata_document; simpl; by rewrite Hh).
  assert (forall old : gmap string JVal,
            (latest_mapping isoformat r ∪ old) !! "data_hash" = Some (JStr h)) as Hr.
  { intros old. apply lookup_union_Some_l. unfold latest_mapping. by rewrite Hh. }
  destruct st as [[] []]. unfold carries_hash.
  destruct (fails env InfluxWrite) eqn:F1; [run_sinks |].
  2: destruct (fails env KafkaSend) eqn:F2; [run_sinks |].
  3: destruct (fails env RedisHset) eqn:F3;
       destruct (fails env MongoInsert) eqn:F4;
       try destruct (fails env RedisExpire) eqn:F5; run_sinks.
  all: rewrite ?drop_all, ?drop_app_length.
  all: repeat split;
    try (by constructor);
    try (repeat constructor; first [exact Hp | exact Hk | apply Hm]).
  all: intros key entry H1 H2; try done.
  all: destruct (decide (key = latest_key r)) as [-> | Hne];
    [rewrite lookup_insert_eq in H1; injection H1 as <-; apply Hr
    | rewrite lookup_insert_ne in H1 by done; done].
Qed.

Lemma process_sensor_data_valid env d ty payload st r0 errs :
  build_reading' env d ty payload = Ret r0 ->
  validate_sensor_reading r0 = (true, errs) ->
  let r := with_data_hash (Some (hash_sensor_data r0)) r0 in
  let st' := snd (process_sensor_data' env d ty payload st) in
  frame (world st') = Some r
  /\ sinks_of st' = sinks_of (snd (sink_fanout' env r st))
  /\ new_calls st st' = new_calls st (snd (sink_fanout' env r st)).
Proof.
  intros HB EV. cbv zeta. destruct st as [[] []]. unfold sinks_of.
  enter_task HB. rewrite EV. reduce_state.
  destruct (fails env InfluxWrite) eqn:F1; [run_sinks; by repeat split |].
  destruct (fails env KafkaSend) eqn:F2; [run_sinks; by repeat split |].
  destruct (fails env RedisHset) eqn:F3;
    destruct (fails env MongoInsert) eqn:F4;
    try destruct (fails env RedisExpire) eqn:F5; run_sinks; by repeat split.
Qed.

(** C2: after [process_sensor_data], the reading it built carries a hash
    exactly when it passed validation; when no reading carries a hash
    (none was built, or it was rejected) no sink call was made and the
    stores are unchanged; whenever a sink call was made the reading
    carries a hash; and a reading that carries a hash carries the hash
    of its fields, is the very reading handed to the fanout (the stores
    and the calls are those of [sink_fanout] on it), and its hash is in
    every point, record, document and cache entry that was written. *)
Theorem C2_hash_iff_validated env d ty payload st :
  let st' := snd (process_sensor_data' env d ty payload st) in
  (forall r, frame (world st') = Some r ->
     (is_Some (data_hash r)
      <-> fst (validate_sensor_reading (with_data_hash None r)) = true))
  /\ ((forall r, frame (world st') = Some r -> data_hash r = None) ->
      new_calls st st' = [] /\ sinks_of st' = sinks_of st)
  /\ (new_calls st st' <> [] ->
      exists r h, frame (world st') = Some r /\ data_hash r = Some h)
  /\ (forall r h, frame (world st') = Some r -> data_hash r = Some h ->
        h = hash_sensor_data (with_data_hash None r)
        /\ sinks_of st' = sinks_of (snd (sink_fanout' env r st))
        /\ new_calls st st' = new_calls st (snd (sink_fanout' env r st))
        /\ carries_hash h st st').
Proof.
  intros st'. subst st'.
  destruct (build_reading' env d ty payload) as [r0 | e] eqn:HB.
  - pose proof (build_reading_fields _ _ _ _ _ HB) as (Hh & _).
    destruct (validate_sensor_reading r0) as [[] errs] eqn:EV.
    + destruct (process_sensor_data_valid env d ty payload st r0 errs HB EV)
        as (Hf & Hs & Hc).
      cbv zeta in Hf, Hs, Hc. split; [| split; [| split]].
      * intros r. rewrite Hf. intros [= <-].
        rewrite with_data_hash_reset, EV by done. simpl. split; eauto.
      * intros Hn. by specialize (Hn _ Hf).
      * intros _. eauto.
      * intros r h. rewrite Hf. intros [= <-] [= <-].
        rewrite with_data_hash_reset by done.
        split; [reflexivity |]. split; [exact Hs |]. split; [exact Hc |].
        apply (carries_hash_sinks _ _ _ _ (eq_sym Hs)).
        by apply sink_fanout_carries_hash.
    + destruct st as [[] []]. unfold sinks_of.
      enter_task HB. rewrite EV. reduce_state. rewrite ?drop_all.
      split; [| split; [| split]].
      * intros r [= <-]. rewrite with_data_hash_none, EV, Hh by done. simpl.
        split; [by intros [? ?] | done].
      * done.
      * done.
      * intros r h [= <-]. by rewrite Hh.
  - pose proof (build_reading_exception _ _ _ _ _ HB) as He.
    destruct st as [[] []]. unfold sinks_of.
    destruct e; try discriminate He; enter_task HB; rewrite ?drop_all;
      (split; [| split; [| split]]; done).
Qed.

End Reading.

Lemma C1_witness :
  let env := Sample.failing KafkaSend in
  let r' := Sample.reading in
  let out := Sample.process env "{'value': 450, 'unit': 'ppm'}" in
  (forall s, fst (sink_fanout Sample.isoformat env r' s)
             = if fails env InfluxWrite then Exn (SinkError "influxdb")
               else if fails env KafkaSend then Exn (SinkError "kafka")
               else Ret tt)
  /\ fst out = Ret tt
  /\ new_calls init_state (snd out)
     = (if fails env InfluxWrite then [InfluxWrite]
        else if fails env KafkaSend then [InfluxWrite; KafkaSend]
        else [InfluxWrite; KafkaSend; RedisHset]
             ++ (if fails env RedisHset then [] else [RedisExpire])
             ++ [MongoInsert])
  /\ influx_points (world (snd out))
     = influx_points (world init_state)
       ++ (if fails env InfluxWrite then [] else [to_point r'])
  /\ kafka_log (world (snd out))
     = kafka_log (world init_state)
       ++ (if fanout_failed env then [] else [kafka_record "sensor-data" (to_dict r')])
  /\ redis_hashes (world (snd out))
     = (if fanout_failed env || fails env RedisHset then redis_hashes (world init_state)
        else <[latest_key r' := latest_mapping Sample.isoformat r'
                                ∪ default ∅ (redis_hashes (world init_state)
                                               !! latest_key r')]>
               (redis_hashes (world init_state)))
  /\ mongo_sensor_metadata (world (snd out))
     = mongo_sensor_metadata (world init_state)
       ++ (if fanout_failed env || fails env MongoInsert then []
           else [metadata_document env r'])
  /\ messages_failed (svc (snd out))
     = messages_failed (svc init_state) + (if fanout_failed env then 1 else 0)
  /\ messages_processed (svc (snd out))
     = messages_processed (svc init_state) + (if fanout_failed env then 0 else 1).
Proof.
  apply (C1_sink_failures Sample.json_loads Sample.fromisoformat Sample.isoformat
           Sample.validate_sensor_reading (Crypto.hash_sensor_data Sample.digest)
           (Sample.failing KafkaSend) "dev1" "co2" "{'value': 450, 'unit': 'ppm'}"
           init_state Sample.built);
    reflexivity.
Defined.

(** C1 as stated fails: when the time-series write fails, the error
    leaves the fanout and none of the three other writes is attempted. *)
Lemma C1_counterexample :
  fst (sink_fanout Sample.isoformat (Sample.failing InfluxWrite) Sample.reading init_state)
  = Exn (SinkError "influxdb")
  /\ calls (world (snd (sink_fanout Sample.isoformat (Sample.failing InfluxWrite)
                          Sample.reading init_state)))
     = [InfluxWrite].
Proof. split; reflexivity. Qed.

Lemma C5_witness :
  let out := Sample.process Sample.no_faults "{'value': -5}" in
  let r := {| device_id := "dev1"; sensor_type := "co2"; timestamp := 60; value := -5;
              unit_ := ""; quality := 1; metadata := []; data_hash := None |} in
  fst out = Ret tt
  /\ new_calls init_state (snd out) = []
  /\ sinks_of (snd out) = sinks_of init_state
  /\ svc (snd out) = svc init_state
  /\ frame (world (snd out)) = Some r /\ data_hash r = None
  /\ log (world (snd out)) = log (world init_state) ++ [(WARNING, "Invalid sensor data")].
Proof.
  apply (C5_invalid_reading_dropped Sample.json_loads Sample.fromisoformat
           Sample.isoformat Sample.validate_sensor_reading
           (Crypto.hash_sensor_data Sample.digest) Sample.no_faults "dev1" "co2"
           "{'value': -5}" init_state);
    reflexivity.
Defined.

(** C5 as stated fails: a reading that validation rejects does not
    increment the failed-message counter. *)
Lemma C5_counterexample :
  fst (Sample.validate_sensor_reading
         {| device_id := "dev1"; sensor_type := "co2"; timestamp := 60; value := -5;
            unit_ := ""; quality := 1; metadata := []; data_hash := None |}) = false
  /\ frame (world (snd (Sample.process Sample.no_faults "{'value': -5}")))
     = Some {| device_id := "dev1"; sensor_type := "co2"; timestamp := 60; value := -5;
               unit_ := ""; quality := 1; metadata := []; data_hash := None |}
  /\ messages_failed (svc (snd (Sample.process Sample.no_faults "{'value': -5}")))
     <> messages_failed (svc init_state) + 1.
Proof. split; [reflexivity | split; [reflexivity | vm_compute; discriminate]]. Qed.

Lemma C2_witness :
  let st' := snd (Sample.process Sample.no_faults "{'value': 450, 'unit': 'ppm'}") in
  (is_Some (data_hash Sample.reading)
   <-> fst (Sample.validate_sensor_reading (with_data_hash None Sample.reading)) = true)
  /\ (exists r h, frame (world st') = Some r /\ data_hash r = Some h)
  /\ sinks_of st'
     = sinks_of (snd (sink_fanout Sample.isoformat Sample.no_faults Sample.reading
                        init_state))
  /\ carries_hash "sha256:dev1" init_state st'.
Proof.
  pose proof (C2_hash_iff_validated Sample.json_loads Sample.fromisoformat
                Sample.isoformat Sample.validate_sensor_reading
                (Crypto.hash_sensor_data Sample.digest)
                Sample.no_faults "dev1" "co2" "{'value': 450, 'unit': 'ppm'}"
                init_state) as (Hiff & _ & Hsome & Hfan).
  destruct (Hfan Sample.reading "sha256:dev1" eq_refl eq_refl) as (_ & Hs & _ & Hc).
  split; [apply Hiff; reflexivity |].
  split; [apply Hsome; vm_compute; discriminate |].
  split; [exact Hs | exact Hc].
Defined.

(** ** Device status *)

(** Called with a device and a JSON object, [process_device_status]
    stores the six status fields under [device_status:{device}], with
    [last_seen] read from the clock of the service and not from the
    payload.  (The callback reaches it only for the subjects of C4.) *)
Lemma process_device_status_stores json_loads isoformat env d payload data st :
  json_loads payload = Some (JObj data) ->
  fails env RedisHset = false ->
  let st' := snd (process_device_status json_loads isoformat env d payload st) in
  redis_hashes (world st') !! ("device_status:" +:+ d)
  = Some (status_mapping isoformat env data
          ∪ default ∅ (redis_hashes (world st) !! ("device_status:" +:+ d)))
  /\ status_mapping isoformat env data !! "last_seen" = Some (JStr (isoformat (now env)))
  /\ dom (status_mapping isoformat env data)
     = list_to_set ["status"; "battery_level"; "signal_strength"; "last_seen";
                    "firmware_version"; "ip_address"].
Proof.
  intros E F st'. subst st'. destruct st as [[] []].
  split; [| split].
  - lazy beta delta [process_device_status loads as_dict lift]. rewrite E.
    lazy beta delta [publish_to_kafka hset ext_call]. rewrite F.
    destruct (fails env KafkaSend); reduce_state; apply lookup_insert_eq.
  - reflexivity.
  - unfold status_mapping. by rewrite dom_list_to_map_L.
Qed.

(** ** The statistics reporter *)

Lemma success_rate_quotient (p f : nat) :
  (success_rate p f ==
   if (p + f =? 0)%nat then 0
   else inject_Z (Z.of_nat p) / inject_Z (Z.of_nat (p + f)))%Q.
Proof.
  unfold success_rate.
  destruct (p + f)%nat as [| n] eqn:E; simpl; [reflexivity |].
  rewrite Qmake_Qdiv. replace (Z.pos (Pos.of_nat (S n))) with (Z.of_nat (S n)) by lia.
  reflexivity.
Qed.

Section Reporter.

Variable isoformat : datetime -> string.

Lemma report_tick_published env st :
  fails env RedisSet = false ->
  report_tick isoformat env st
  = (Ret tt,
     set_log (log (world st) ++ [(INFO, "Stats")])
       (set_redis_ttl (<["ingestion_stats" := 3600]> (redis_ttl (world st)))
          (set_redis_strings
             (<["ingestion_stats" := snapshot isoformat env st]> (redis_strings (world st)))
             (set_calls (calls (world st) ++ [RedisSet]) (clear_counts st))))).
Proof.
  intros F. destruct st as [[] []].
  lazy beta delta [report_tick redis_set ext_call]. rewrite F.
  reflexivity.
Qed.

Lemma report_tick_failed env st :
  fails env RedisSet = true ->
  report_tick isoformat env st
  = (Ret tt,
     set_log (log (world st) ++ [(ERROR, "Error reporting statistics")])
       (set_calls (calls (world st) ++ [RedisSet]) st)).
Proof.
  intros F. destruct st as [[] []].
  lazy beta delta [report_tick redis_set ext_call]. rewrite F.
  reflexivity.
Qed.

(** C7: a turn of the reporter whose write succeeds publishes, under the
    key [ingestion_stats], the snapshot of the counters it starts from,
    with the success rate [processed / (processed + failed)] ([0] for an
    empty window), and then clears both counters and the active-device
    set; so the snapshot of the turn that follows a window without
    traffic shows no message and no device, whatever the earlier window
    held. *)
Theorem C7_tick_publishes_then_resets env env2 st :
  fails env RedisSet = false -> fails env2 RedisSet = false ->
  let st1 := snd (report_tick isoformat env st) in
  let st2 := snd (report_tick isoformat env2 st1) in
  let p := messages_processed (svc st) in
  let f := messages_failed (svc st) in
  redis_strings (world st1) !! "ingestion_stats"
  = Some {| s_timestamp := isoformat (now env);
            s_messages_processed := p; s_messages_failed := f;
            s_active_devices := size (devices_active (svc st));
            s_success_rate := success_rate p f |}
  /\ (success_rate p f ==
      if (p + f =? 0)%nat then 0
      else inject_Z (Z.of_nat p) / inject_Z (Z.of_nat (p + f)))%Q
  /\ messages_processed (svc st1) = 0
  /\ messages_failed (svc st1) = 0
  /\ devices_active (svc st1) = ∅
  /\ redis_strings (world st2) !! "ingestion_stats"
     = Some {| s_timestamp := isoformat (now env2);
               s_messages_processed := 0; s_messages_failed := 0;
               s_active_devices := 0; s_success_rate := 0 |}.
Proof.
  intros F F2 st1 st2 p f. subst st1 st2 p f.
  rewrite (report_tick_published env st F).
  cbn [snd]. rewrite (report_tick_published env2 _ F2). cbn [snd].
  destruct st as [[] []]. reduce_state. unfold snapshot, clear_counts. reduce_state.
  rewrite !lookup_insert_eq.
  repeat split; try reflexivity; try apply success_rate_quotient.
Qed.

End Reporter.

Lemma C7_witness :
  let st1 := snd (report_tick Sample.isoformat Sample.no_faults Sample.busy) in
  let st2 := snd (report_tick Sample.isoformat Sample.no_faults st1) in
  redis_strings (world st1) !! "ingestion_stats"
  = Some {| s_timestamp := "60"; s_messages_processed := 10; s_messages_failed := 2;
            s_active_devices := size (devices_active (svc Sample.busy));
            s_success_rate := success_rate 10 2 |}
  /\ (success_rate 10 2 ==
      if (10 + 2 =? 0)%nat then 0
      else inject_Z (Z.of_nat 10) / inject_Z (Z.of_nat (10 + 2)))%Q
  /\ messages_processed (svc st1) = 0
  /\ messages_failed (svc st1) = 0
  /\ devices_active (svc st1) = ∅
  /\ redis_strings (world st2) !! "ingestion_stats"
     = Some {| s_timestamp := "60"; s_messages_processed := 0; s_messages_failed := 0;
               s_active_devices := 0; s_success_rate := 0 |}.
Proof.
  apply (C7_tick_publishes_then_resets Sample.isoformat Sample.no_faults Sample.no_faults
           Sample.busy); reflexivity.
Defined.

(** The window of the example: ten processed, two failed, two devices,
    a success rate of ten twelfths. *)
Example busy_window :
  size (devices_active (svc Sample.busy)) = 2 /\ (success_rate 10 2 == 5 # 6)%Q.
Proof. split; reflexivity. Qed.

(** ** Counts carried across a window *)

Lemma oblivious_ret {A : Type} (a : A) : oblivious (mret a).
Proof. by intros p f D s. Qed.

Lemma oblivious_raise {A : Type} (e : Error) : oblivious (@raise A e).
Proof. by intros p f D s. Qed.

Lemma oblivious_lift {A : Type} (r : Res A) : oblivious (lift r).
Proof. by intros p f D s. Qed.

Lemma oblivious_bind {A B : Type} (m : M A) (k : A -> M B) :
  oblivious m -> (forall a, oblivious (k a)) -> oblivious (m ≫= k).
Proof.
  intros Hm Hk p f D s. rewrite !bind_unfold, Hm.
  destruct (m s) as [[a | e] s']; simpl; [apply Hk | reflexivity].
Qed.

Lemma oblivious_try_except {A : Type} (body : M A) handler :
  oblivious body -> (forall e, oblivious (handler e)) ->
  oblivious (try_except body handler).
Proof.
  intros Hb Hh p f D s. unfold try_except. rewrite Hb.
  destruct (body s) as [[a | e] s']; simpl; [reflexivity |].
  destruct (is_exception e); [apply Hh | reflexivity].
Qed.

Lemma oblivious_modify (g : State -> State) :
  (forall p f D s, g (shift_counts p f D s) = shift_counts p f D (g s)) ->
  oblivious (modify g).
Proof. intros Hg p f D s. unfold modify. simpl. by rewrite Hg. Qed.

(** Shows that a field update commutes with a shift of the counters. *)
Ltac commutes :=
  intros ? ? ? [[] []]; unfold shift_counts; reduce_state;
  f_equal; f_equal; first [reflexivity | lia | apply (assoc_L (∪))].

Lemma oblivious_logger lvl msg : oblivious (logger lvl msg).
Proof. apply oblivious_modify. commutes. Qed.

Lemma oblivious_ext_call env c : oblivious (ext_call env c).
Proof.
  intros p f D [[] []]. unfold ext_call, shift_counts. reduce_state.
  destruct (fails env c); reflexivity.
Qed.

Lemma oblivious_count_failed : oblivious count_failed.
Proof. apply oblivious_modify. commutes. Qed.

Lemma oblivious_for_each {A : Type} (xs : list A) body :
  (forall x, oblivious (body x)) -> oblivious (for_each xs body).
Proof.
  intros Hb. induction xs as [| x xs IH]; simpl.
  - apply oblivious_ret.
  - apply oblivious_bind; [apply Hb | intros _; exact IH].
Qed.

Create HintDb obl.
#[local] Hint Resolve oblivious_ret oblivious_raise oblivious_lift oblivious_logger
  oblivious_ext_call oblivious_count_failed : obl.

(** Walks through a method that never reads the counters. *)
Ltac obliv :=
  repeat first
    [ solve [auto with obl]
    | apply oblivious_bind; [| intros ?]
    | apply oblivious_try_except; [| intros ?]
    | apply oblivious_modify; solve [commutes]
    | match goal with
      | |- oblivious (if ?b then _ else _) => destruct b
      | |- oblivious (match ?x with _ => _ end) => destruct x
      | |- oblivious (let (_, _) := ?x in _) => destruct x
      end ].

Section Window.

Variable json_loads : string -> option JVal.
Variable fromisoformat : string -> option datetime.
Variable isoformat : datetime -> string.
Variable validate_sensor_reading : SensorData -> bool * list string.
Variable hash_sensor_data : SensorData -> string.

Local Abbreviation run_task' :=
  (run_task json_loads fromisoformat isoformat validate_sensor_reading hash_sensor_data).
Local Abbreviation report_tick' := (report_tick isoformat).

Lemma oblivious_process_sensor_data env d ty payload :
  oblivious (process_sensor_data json_loads fromisoformat isoformat
               validate_sensor_reading hash_sensor_data env d ty payload).
Proof.
  unfold process_sensor_data, sink_fanout, store_in_influxdb, publish_to_kafka,
    cache_latest_reading, store_metadata_in_mongodb, hset, expire.
  obliv.
Qed.

Lemma oblivious_process_device_status env d payload :
  oblivious (process_device_status json_loads isoformat env d payload).
Proof. unfold process_device_status, publish_to_kafka, hset. obliv. Qed.

Lemma oblivious_process_device_config env d payload :
  oblivious (process_device_config json_loads env d payload).
Proof. unfold process_device_config. obliv. Qed.

Lemma oblivious_run_task env t :
  t <> StatsReporterTask -> oblivious (run_task' env t).
Proof.
  destruct t; intros Ht; simpl;
    auto using oblivious_process_sensor_data, oblivious_process_device_status,
      oblivious_process_device_config.
  congruence.
Qed.

Lemma run_window_shift window p f D s :
  Forall (fun et => snd et <> StatsReporterTask) window ->
  run_window run_task' window (shift_counts p f D s)
  = shift_counts p f D (run_window run_task' window s).
Proof.
  intros Hw. revert s. induction Hw as [| [env t] rest Ht _ IH]; intros s; simpl.
  - reflexivity.
  - rewrite (oblivious_run_task env t Ht). simpl. apply IH.
Qed.

Lemma shift_clear_counts s :
  shift_counts (messages_processed (svc s)) (messages_failed (svc s))
    (devices_active (svc s)) (clear_counts s) = s.
Proof.
  destruct s as [[] []]. unfold shift_counts, clear_counts. reduce_state.
  f_equal. f_equal. apply (left_id_L ∅ (∪)).
Qed.

(** C10: when the write of the snapshot raises, the turn of the reporter
    ends in its handler: nothing is published and the processed counter,
    the failed counter and the active-device set keep their values.  The
    next snapshot that is published, after any further coroutines have
    run, therefore shows the earlier counts added to the counts those
    coroutines produce on their own (from cleared counters), and the
    union of the device sets. *)
Theorem C10_failed_publish_skips_reset env st :
  fails env RedisSet = true ->
  let st1 := snd (report_tick' env st) in
  fst (report_tick' env st) = Ret tt
  /\ messages_processed (svc st1) = messages_processed (svc st)
  /\ messages_failed (svc st1) = messages_failed (svc st)
  /\ devices_active (svc st1) = devices_active (svc st)
  /\ redis_strings (world st1) = redis_strings (world st)
  /\ forall window env2,
       Forall (fun et => snd et <> StatsReporterTask) window ->
       fails env2 RedisSet = false ->
       let own := run_window run_task' window (clear_counts st1) in
       exists snap,
         redis_strings (world (snd (report_tick' env2 (run_window run_task' window st1))))
           !! "ingestion_stats" = Some snap
         /\ s_messages_processed snap
            = messages_processed (svc own) + messages_processed (svc st)
         /\ s_messages_failed snap = messages_failed (svc own) + messages_failed (svc st)
         /\ s_active_devices snap
            = size (devices_active (svc own) ∪ devices_active (svc st)).
Proof.
  intros F st1. subst st1. rewrite (report_tick_failed isoformat env st F). cbn [fst snd].
  set (st1 := set_log _ _).
  assert (svc st1 = svc st) as Hsvc by (by destruct st as [[] []]).
  rewrite Hsvc.
  split; [reflexivity |]. split; [reflexivity |]. split; [reflexivity |].
  split; [reflexivity |]. split; [by destruct st as [[] []] |].
  intros window env2 Hw F2.
  set (own := run_window _ window (clear_counts st1)).
  assert (run_window run_task' window st1
          = shift_counts (messages_processed (svc st1)) (messages_failed (svc st1))
              (devices_active (svc st1)) own) as ->.
  { unfold own. rewrite <- (run_window_shift window _ _ _ _ Hw).
    by rewrite shift_clear_counts. }
  rewrite (report_tick_published isoformat env2 _ F2). cbn [snd].
  exists (snapshot isoformat env2
            (shift_counts (messages_processed (svc st1)) (messages_failed (svc st1))
               (devices_active (svc st1)) own)).
  split.
  - reduce_state. apply lookup_insert_eq.
  - rewrite Hsvc. destruct own as [[] []]. unfold shift_counts, snapshot. reduce_state.
    repeat split.
Qed.

End Window.

Lemma C10_witness :
  let env := Sample.failing RedisSet in
  let st1 := snd (report_tick Sample.isoformat env Sample.busy) in
  let run := run_task Sample.json_loads Sample.fromisoformat Sample.isoformat
               Sample.validate_sensor_reading (Crypto.hash_sensor_data Sample.digest) in
  fst (report_tick Sample.isoformat env Sample.busy) = Ret tt
  /\ messages_processed (svc st1) = messages_processed (svc Sample.busy)
  /\ messages_failed (svc st1) = messages_failed (svc Sample.busy)
  /\ devices_active (svc st1) = devices_active (svc Sample.busy)
  /\ redis_strings (world st1) = redis_strings (world Sample.busy)
  /\ forall window env2,
       Forall (fun et => snd et <> StatsReporterTask) window ->
       fails env2 RedisSet = false ->
       let own := run_window run window (clear_counts st1) in
       exists snap,
         redis_strings (world (snd (report_tick Sample.isoformat env2
                                      (run_window run window st1))))
           !! "ingestion_stats" = Some snap
         /\ s_messages_processed snap
            = messages_processed (svc own) + messages_processed (svc Sample.busy)
         /\ s_messages_failed snap
            = messages_failed (svc own) + messages_failed (svc Sample.busy)
         /\ s_active_devices snap
            = size (devices_active (svc own) ∪ devices_active (svc Sample.busy)).
Proof.
  apply (C10_failed_publish_skips_reset Sample.json_loads Sample.fromisoformat
           Sample.isoformat Sample.validate_sensor_reading
           (Crypto.hash_sensor_data Sample.digest) (Sample.failing RedisSet) Sample.busy).
  reflexivity.
Defined.

(** The example run: the write fails on a window of ten processed and
    two failed; one more reading is processed; the snapshot then
    published shows eleven processed and two failed. *)
Example counts_accumulate_after_failed_publish :
  let st1 := snd (report_tick Sample.isoformat (Sample.failing RedisSet) Sample.busy) in
  let st2 := run_window
               (run_task Sample.json_loads Sample.fromisoformat Sample.isoformat
                  Sample.validate_sensor_reading (Crypto.hash_sensor_data Sample.digest))
               [(Sample.no_faults,
                 SensorDataTask "dev1" "co2" "{'value': 450, 'unit': 'ppm'}")] st1 in
  let st3 := snd (report_tick Sample.isoformat Sample.no_faults st2) in
  (s_messages_processed <$> redis_strings (world st3) !! "ingestion_stats") = Some 11
  /\ (s_messages_failed <$> redis_strings (world st3) !! "ingestion_stats") = Some 2.
Proof. split; vm_compute; reflexivity. Qed.

(** ** The fingerprint *)

Lemma dict_lookup_permutation (k : string) (l1 l2 : list (string * JVal)) :
  NoDup l1.*1 -> l1 ≡ₚ l2 -> dict_lookup k l1 = dict_lookup k l2.
Proof.
  intros Hnd Hp. induction Hp as [| [k0 v0] l l' Hp IH | [k1 v1] [k2 v2] l | l l' l'' Hp1 IH1 Hp2 IH2].
  - reflexivity.
  - simpl. destruct (String.eqb k0 k); [reflexivity |].
    apply IH. rewrite fmap_cons in Hnd. by apply NoDup_cons in Hnd as [_ ?].
  - simpl. rewrite !fmap_cons in Hnd. simpl in Hnd.
    apply NoDup_cons in Hnd as [Hn _].
    destruct (String.eqb_spec k1 k) as [-> |]; [| reflexivity].
    destruct (String.eqb_spec k2 k) as [-> |]; [| reflexivity].
    exfalso. apply Hn. left.
  - rewrite IH1 by assumption. apply IH2. by rewrite <- Hp1.
Qed.

Section FingerprintProperties.

Variable digest : list (string * JVal) -> string.
Variable json_loads : string -> option JVal.
Variable fromisoformat : string -> option datetime.
Variable isoformat : datetime -> string.

Local Abbreviation build_reading' := (build_reading json_loads fromisoformat isoformat).
Local Abbreviation fingerprint := (Crypto.hash_sensor_data digest).

Lemma build_reading_order env d ty p1 p2 items1 items2 :
  json_loads p1 = Some (JObj items1) -> json_loads p2 = Some (JObj items2) ->
  NoDup items1.*1 -> items1 ≡ₚ items2 ->
  build_reading' env d ty p1 = build_reading' env d ty p2.
Proof.
  intros E1 E2 Hnd Hp. unfold build_reading, loads, dict_get. rewrite E1, E2. simpl.
  rewrite !res_bind_unfold.
  by rewrite !(dict_lookup_permutation _ items1 items2 Hnd Hp).
Qed.

(** C9: the fingerprint is a function of the five canonical fields: two
    readings that agree on device, sensor type, timestamp, value and unit
    have the same hash, whatever their quality, metadata or earlier hash;
    and two payloads that hold the same bindings in a different order
    build readings with the same hash. *)
Theorem C9_fingerprint_of_canonical_fields :
  (forall r1 r2,
     device_id r1 = device_id r2 -> sensor_type r1 = sensor_type r2 ->
     timestamp r1 = timestamp r2 -> value r1 = value r2 -> unit_ r1 = unit_ r2 ->
     fingerprint r1 = fingerprint r2)
  /\ (forall env d ty p1 p2 items1 items2 r1,
        json_loads p1 = Some (JObj items1) -> json_loads p2 = Some (JObj items2) ->
        NoDup items1.*1 -> items1 ≡ₚ items2 ->
        build_reading' env d ty p1 = Ret r1 ->
        exists r2, build_reading' env d ty p2 = Ret r2 /\ fingerprint r1 = fingerprint r2).
Proof.
  split.
  - intros r1 r2 Hd Hs Ht Hv Hu. unfold Crypto.hash_sensor_data, Crypto.canonical.
    by rewrite Hd, Hs, Ht, Hv, Hu.
  - intros env d ty p1 p2 items1 items2 r1 E1 E2 Hnd Hp HB. exists r1. split; [| reflexivity].
    by rewrite <- (build_reading_order env d ty p1 p2 items1 items2 E1 E2 Hnd Hp).
Qed.

End FingerprintProperties.

Lemma C9_witness :
  Crypto.hash_sensor_data Sample.digest Sample.reading
  = Crypto.hash_sensor_data Sample.digest
      {| device_id := "dev1"; sensor_type := "co2"; timestamp := 60; value := 450;
         unit_ := "ppm"; quality := 1 # 2; metadata := [("site", JStr "north")];
         data_hash := None |}
  /\ exists r2,
       build_reading Sample.json_loads Sample.fromisoformat Sample.isoformat
         Sample.no_faults "dev1" "co2" "{'unit': 'ppm', 'value': 450}" = Ret r2
       /\ Crypto.hash_sensor_data Sample.digest Sample.built
          = Crypto.hash_sensor_data Sample.digest r2.
Proof.
  pose proof (C9_fingerprint_of_canonical_fields Sample.digest Sample.json_loads
                Sample.fromisoformat Sample.isoformat) as [Hfields Horder].
  split.
  - apply Hfields; reflexivity.
  - apply (Horder Sample.no_faults "dev1" "co2" "{'value': 450, 'unit': 'ppm'}"
             "{'unit': 'ppm', 'value': 450}"
             [("value", JNum 450); ("unit", JStr "ppm")]
             [("unit", JStr "ppm"); ("value", JNum 450)]);
      try reflexivity.
    + by apply (bool_decide_unpack _).
    + apply perm_swap.
Defined.

(** * Further properties *)

(** ** Splitting a topic *)

Lemma split_not_nil sep s : split sep s <> [].
Proof. destruct s as [| c s]; simpl; [done |]. destruct (Ascii.eqb c sep); [done |]. by destruct (split sep s). Qed.

Lemma join_cons sep p ps :
  ps <> [] -> join sep (p :: ps) = p +:+ String sep (join sep ps).
Proof. by destruct ps. Qed.

(** X1: splitting a topic at a separator and joining the parts with it
    gives the topic back; the number of parts is one more than the
    number of separators, and no part contains the separator. *)
Theorem split_join sep s :
  join sep (split sep s) = s
  /\ length (split sep s) = S (occurrences sep s)
  /\ Forall (fun part => occurrences sep part = 0) (split sep s).
Proof.
  induction s as [| c s (IHj & IHl & IHf)]; simpl.
  - repeat split. by constructor.
  - pose proof (split_not_nil sep s) as Hn.
    destruct (Ascii.eqb_spec c sep) as [-> | Hc].
    + rewrite join_cons, IHj by done. simpl. rewrite IHl. repeat split. by constructor.
    + destruct (split sep s) as [| p ps] eqn:E; [done |].
      apply Forall_cons in IHf as [Hp Hps].
      split; [| split].
      * destruct ps as [| q qs]; [simpl in *; by rewrite IHj |].
        rewrite join_cons by done. rewrite join_cons in IHj by done.
        rewrite <- IHj. reflexivity.
      * exact IHl.
      * constructor; [| done]. simpl. destruct (Ascii.eqb_spec c sep); [done |]. exact Hp.
Qed.


(** ** The success rate *)

(** X2: the success rate the reporter publishes lies between 0 and 1;
    it is 0 when nothing was processed, an empty window included, and 1
    when something was processed and nothing failed; more failures never
    raise it and more processed messages never lower it.  The rate is
    the exact quotient here; each of these clauses is kept by rounding
    to a float, which is monotone and leaves 0 and 1 as they are. *)
Theorem success_rate_bounds (p f : nat) :
  (0 <= success_rate p f)%Q /\ (success_rate p f <= 1)%Q
  /\ (p = 0%nat -> (success_rate p f == 0)%Q)
  /\ ((0 < p)%nat -> (success_rate p 0 == 1)%Q)
  /\ (forall f', (f <= f')%nat -> (success_rate p f' <= success_rate p f)%Q)
  /\ (forall p', (p <= p')%nat -> (success_rate p f <= success_rate p' f)%Q).
Proof.
  assert (forall a b : nat, (0 < a + b)%nat ->
            success_rate a b = (Z.of_nat a # Pos.of_nat (a + b))%Q) as Hpos.
  { intros a b H. unfold success_rate.
    destruct (Nat.ltb_spec 0 (a + b)); [reflexivity | lia]. }
  assert (forall a b : nat, (a + b = 0)%nat -> success_rate a b = 0%Q) as Hzero.
  { intros a b H. unfold success_rate. by rewrite H. }
  assert (forall a b : nat, (0 < a + b)%nat ->
            Z.pos (Pos.of_nat (a + b)) = (Z.of_nat a + Z.of_nat b)%Z) as Hden by lia.
  repeat split.
  - destruct (decide (p + f = 0)%nat) as [E | E]; [by rewrite Hzero |].
    rewrite Hpos by lia. unfold Qle. simpl. lia.
  - destruct (decide (p + f = 0)%nat) as [E | E]; [by rewrite Hzero |].
    rewrite Hpos by lia. unfold Qle. simpl. rewrite Hden by lia. lia.
  - intros ->. destruct (decide (0 + f = 0)%nat) as [E | E]; [by rewrite Hzero |].
    rewrite Hpos by lia. reflexivity.
  - intros H. rewrite Hpos by lia. unfold Qeq. simpl. rewrite Hden by lia. lia.
  - intros f' H.
    destruct (decide (p + f' = 0)%nat) as [E | E].
    + assert (f = 0%nat /\ f' = 0%nat /\ p = 0%nat) as (-> & -> & ->) by lia. done.
    + destruct (decide (p + f = 0)%nat) as [E' | E'].
      * assert (p = 0%nat) as -> by lia.
        rewrite (Hzero 0%nat f) by lia. rewrite (Hpos 0%nat f') by lia. done.
      * rewrite !Hpos by lia. unfold Qle. simpl. rewrite !Hden by lia. nia.
  - intros p' H.
    destruct (decide (p + f = 0)%nat) as [E | E].
    + rewrite (Hzero p f) by done.
      destruct (decide (p' + f = 0)%nat) as [E' | E']; [by rewrite (Hzero p' f) |].
      rewrite (Hpos p' f) by lia. unfold Qle. simpl. lia.
    + rewrite !Hpos by lia. unfold Qle. simpl. rewrite !Hden by lia. nia.
Qed.


(** ** The time-series point *)

(** X3: the time-series point of a reading has the measurement
    [sensor_reading], the reading's timestamp, the tags [device_id] and
    [sensor_type] followed by one [meta_] tag per metadata entry whose
    value is a string, and the fields [value], [quality] and [data_hash] followed by
    one [meta_] field per metadata entry whose value is a number, in the
    order of the metadata; entries of any other type are dropped. *)
Theorem to_point_layout (r : SensorData) :
  measurement (to_point r) = "sensor_reading"
  /\ time (to_point r) = Some (timestamp r)
  /\ tags (to_point r)
     = [("device_id", device_id r); ("sensor_type", sensor_type r)]
       ++ omap metadata_tag (metadata r)
  /\ fields (to_point r)
     = [("value", JNum (value r)); ("quality", JNum (quality r));
        ("data_hash", opt_str (data_hash r))]
       ++ omap metadata_field (metadata r).
Proof.
  unfold to_point.
  destruct (metadata_fold (metadata r)
              (at_time (timestamp r)
                 (field "data_hash" (opt_str (data_hash r))
                    (field "quality" (JNum (quality r))
                       (field "value" (JNum (value r))
                          (tag "sensor_type" (sensor_type r)
                             (tag "device_id" (device_id r) (point "sensor_reading"))))))))
    as (Hm & Ht & Htag & Hf).
  cbv zeta. rewrite Hm, Ht, Htag, Hf. done.
Qed.


(** ** The coroutines never raise *)

Lemma only_exceptions_handled {A : Type} (body : M A) handler :
  only_exceptions body ->
  (forall e, is_exception e = true -> only_exceptions (handler e)) ->
  only_exceptions (try_except body handler).
Proof.
  intros Hb Hh s e s'. unfold try_except.
  destruct (body s) as [[a | e0] s0] eqn:E; [discriminate |].
  pose proof (Hb _ _ _ E) as He. rewrite He. by apply Hh.
Qed.

Lemma only_exceptions_lift {A : Type} (r : Res A) :
  (forall e, r = Exn e -> is_exception e = true) -> only_exceptions (lift r).
Proof. intros Hr s e s' [= -> _]. by apply Hr. Qed.

Lemma only_exceptions_reraise {A : Type} lvl msg (e : Error) :
  is_exception e = true -> only_exceptions (logger lvl msg ≫= fun _ => @raise A e).
Proof.
  intros He. apply only_exceptions_bind; [apply only_exceptions_logger |].
  intros _. by apply only_exceptions_raise.
Qed.

Lemma returns_ret {A : Type} (a : A) : returns (mret a).
Proof. intros s. by eexists _, _. Qed.

Lemma returns_gets {A : Type} (f : State -> A) : returns (gets f).
Proof. intros s. by eexists _, _. Qed.

Lemma returns_count_failed : returns count_failed.
Proof. apply returns_modify. Qed.

Lemma returns_handler lvl msg : returns (logger lvl msg ≫= fun _ => count_failed).
Proof. apply returns_bind; [apply returns_logger | intros _; apply returns_count_failed]. Qed.

Section Coroutines.

Variable json_loads : string -> option JVal.
Variable fromisoformat : string -> option datetime.
Variable isoformat : datetime -> string.
Variable validate_sensor_reading : SensorData -> bool * list string.
Variable hash_sensor_data : SensorData -> string.

Local Abbreviation run_task' :=
  (run_task json_loads fromisoformat isoformat validate_sensor_reading hash_sensor_data).

Lemma loads_exception payload e :
  loads json_loads payload = Exn e -> is_exception e = true.
Proof. unfold loads. destruct (json_loads payload); [done |]. by intros [= <-]. Qed.

Lemma as_dict_exception v e : as_dict v = Exn e -> is_exception e = true.
Proof. destruct v; try done; by intros [= <-]. Qed.

Lemma only_exceptions_store_in_influxdb env r : only_exceptions (store_in_influxdb env r).
Proof.
  apply only_exceptions_handled.
  - cbv zeta. apply only_exceptions_bind; [apply only_exceptions_ext_call |].
    intros _. apply only_exceptions_modify.
  - intros e He. by apply only_exceptions_reraise.
Qed.

Lemma only_exceptions_publish_to_kafka env topic data :
  only_exceptions (publish_to_kafka env topic data).
Proof.
  apply only_exceptions_handled.
  - apply only_exceptions_bind; [apply only_exceptions_ext_call |].
    intros _. apply only_exceptions_modify.
  - intros e He. by apply only_exceptions_reraise.
Qed.

Lemma only_exceptions_hset env key mapping : only_exceptions (hset env key mapping).
Proof.
  apply only_exceptions_bind; [apply only_exceptions_ext_call |].
  intros _. apply only_exceptions_modify.
Qed.

Lemma returns_cache_latest_reading env r : returns (cache_latest_reading isoformat env r).
Proof.
  apply try_except_returns; [| intros e; apply returns_logger].
  cbv zeta. apply only_exceptions_bind; [apply only_exceptions_hset |].
  intros _. apply only_exceptions_bind; [apply only_exceptions_ext_call |].
  intros _. apply only_exceptions_modify.
Qed.

Lemma returns_store_metadata_in_mongodb env r : returns (store_metadata_in_mongodb env r).
Proof.
  apply try_except_returns; [| intros e; apply returns_logger].
  cbv zeta. apply only_exceptions_bind; [apply only_exceptions_ext_call |].
  intros _. apply only_exceptions_modify.
Qed.

Lemma returns_only_exceptions {A : Type} (m : M A) : returns m -> only_exceptions m.
Proof. intros H s e s' E. destruct (H s) as (a & s0 & E'). congruence. Qed.

Lemma only_exceptions_sink_fanout env r : only_exceptions (sink_fanout isoformat env r).
Proof.
  unfold sink_fanout.
  apply only_exceptions_bind; [apply only_exceptions_store_in_influxdb | intros _].
  apply only_exceptions_bind; [apply only_exceptions_publish_to_kafka | intros _].
  apply only_exceptions_bind;
    [apply returns_only_exceptions, returns_cache_latest_reading | intros _].
  apply returns_only_exceptions, returns_store_metadata_in_mongodb.
Qed.

Lemma returns_process_sensor_data env d ty payload :
  returns (process_sensor_data json_loads fromisoformat isoformat validate_sensor_reading
             hash_sensor_data env d ty payload).
Proof.
  apply returns_bind; [apply returns_modify | intros _].
  apply try_except_returns; [| intros e; apply returns_handler].
  apply only_exceptions_bind.
  { apply only_exceptions_lift. intros e. apply build_reading_exception. }
  intros r. apply only_exceptions_bind; [apply only_exceptions_modify | intros _].
  destruct (validate_sensor_reading r) as [[] errs]; simpl.
  - apply only_exceptions_bind; [apply only_exceptions_modify | intros _].
    apply only_exceptions_bind; [apply only_exceptions_sink_fanout | intros _].
    only_exn.
  - apply only_exceptions_logger.
Qed.

Lemma returns_process_device_status env d payload :
  returns (process_device_status json_loads isoformat env d payload).
Proof.
  apply try_except_returns; [| intros e; apply returns_logger].
  apply only_exceptions_bind.
  { apply only_exceptions_lift. intros e. apply loads_exception. }
  intros v. apply only_exceptions_bind.
  { apply only_exceptions_lift. intros e. apply as_dict_exception. }
  intros data. apply only_exceptions_bind; [apply only_exceptions_hset | intros _].
  apply only_exceptions_bind; [apply only_exceptions_publish_to_kafka | intros _].
  apply only_exceptions_logger.
Qed.

Lemma returns_process_device_config env d payload :
  returns (process_device_config json_loads env d payload).
Proof.
  apply try_except_returns; [| intros e; apply returns_logger].
  apply only_exceptions_bind.
  { apply only_exceptions_lift. intros e. apply loads_exception. }
  intros v. only_exn.
Qed.

Lemma returns_report_tick env : returns (report_tick isoformat env).
Proof.
  apply try_except_returns; [| intros e; apply returns_logger].
  apply only_exceptions_bind; [apply only_exceptions_gets | intros stats].
  unfold redis_set. only_exn.
Qed.

Lemma returns_run_statistics_reporter ticks :
  returns (run_statistics_reporter isoformat ticks).
Proof.
  induction ticks as [| env ticks IH]; simpl; [apply returns_ret |].
  apply returns_bind; [apply returns_gets | intros []]; [| apply returns_ret].
  apply returns_bind; [apply returns_report_tick | intros _; exact IH].
Qed.

(** X4: whatever the payload and whichever external calls fail, a
    coroutine of the service returns normally: every exception is caught
    inside it. *)
Theorem coroutines_never_raise env t s :
  fst (run_task json_loads fromisoformat isoformat validate_sensor_reading
         hash_sensor_data env t s) = Ret tt.
Proof.
  apply returns_unit. destruct t; simpl.
  - apply returns_process_sensor_data.
  - apply returns_process_device_status.
  - apply returns_process_device_config.
  - apply (returns_run_statistics_reporter [env]).
Qed.

End Coroutines.


(** ** What a coroutine does to the counters and the stores *)

Ltac prefix_ok := first [reflexivity | apply prefix_app_r; reflexivity].

(** Closes the three facts about a step once the final state is explicit. *)
Ltac step_ok :=
  unfold counted, appended, handles; reduce_state;
  split;
  [ first [ left; eexists; repeat split; reflexivity
          | right; left; split; [reflexivity |]; split; [reflexivity |];
            first [left; reflexivity | right; reflexivity]
          | right; right; repeat split; reflexivity ]
  | split; [repeat split; prefix_ok | reflexivity] ].

Section Steps.

Variable json_loads : string -> option JVal.
Variable fromisoformat : string -> option datetime.
Variable isoformat : datetime -> string.
Variable validate_sensor_reading : SensorData -> bool * list string.
Variable hash_sensor_data : SensorData -> string.

Local Abbreviation run_task' :=
  (run_task json_loads fromisoformat isoformat validate_sensor_reading hash_sensor_data).
Local Abbreviation build_reading' := (build_reading json_loads fromisoformat isoformat).

Lemma process_sensor_data_step env d ty payload s :
  let s' := snd (process_sensor_data json_loads fromisoformat isoformat
                   validate_sensor_reading hash_sensor_data env d ty payload s) in
  counted s s' /\ appended s s' /\ handles s' = handles s.
Proof.
  cbv zeta. destruct s as [[] []].
  destruct (build_reading' env d ty payload) as [r | e] eqn:HB.
  - destruct (validate_sensor_reading r) as [[] errs] eqn:EV.
    + enter_task HB. rewrite EV. reduce_state.
      destruct (fails env InfluxWrite) eqn:F1; [run_sinks; step_ok |].
      destruct (fails env KafkaSend) eqn:F2; [run_sinks; step_ok |].
      destruct (fails env RedisHset) eqn:F3;
        destruct (fails env MongoInsert) eqn:F4;
        try destruct (fails env RedisExpire) eqn:F5; run_sinks; step_ok.
    + enter_task HB. rewrite EV. reduce_state. step_ok.
  - pose proof (build_reading_exception _ _ _ _ _ _ _ _ HB) as He.
    destruct e; try discriminate He; enter_task HB; step_ok.
Qed.

Lemma process_device_status_step env d payload s :
  let s' := snd (process_device_status json_loads isoformat env d payload s) in
  counted s s' /\ appended s s' /\ handles s' = handles s.
Proof.
  cbv zeta. destruct s as [[] []].
  lazy beta delta [process_device_status loads as_dict lift].
  destruct (json_loads payload) as [v |]; [| step_ok].
  destruct v; try step_ok.
  lazy beta delta [publish_to_kafka hset ext_call].
  destruct (fails env RedisHset) eqn:F1; [use_flags; step_ok |].
  destruct (fails env KafkaSend) eqn:F2; use_flags; step_ok.
Qed.

Lemma process_device_config_step env d payload s :
  let s' := snd (process_device_config json_loads env d payload s) in
  counted s s' /\ appended s s' /\ handles s' = handles s.
Proof.
  cbv zeta. destruct s as [[] []].
  lazy beta delta [process_device_config loads lift ext_call].
  destruct (json_loads payload) as [v |]; [| step_ok].
  destruct (fails env MongoUpdate) eqn:F1; use_flags; step_ok.
Qed.

Lemma report_tick_step env s :
  let s' := snd (report_tick isoformat env s) in
  counted s s' /\ appended s s' /\ handles s' = handles s.
Proof.
  cbv zeta. destruct s as [[] []].
  lazy beta delta [report_tick redis_set ext_call].
  destruct (fails env RedisSet) eqn:F1; use_flags; step_ok.
Qed.

Lemma run_task_step env t s :
  let s' := snd (run_task' env t s) in
  counted s s' /\ appended s s' /\ handles s' = handles s.
Proof.
  destruct t; simpl.
  - apply process_sensor_data_step.
  - apply process_device_status_step.
  - apply process_device_config_step.
  - rewrite bind_unfold. simpl. destruct (running (svc s)) eqn:R.
    + rewrite bind_unfold.
      pose proof (report_tick_step env s) as H. cbv zeta in H.
      destruct (report_tick isoformat env s) as [[[] | e] s']; exact H.
    + destruct s as [[] []]. step_ok.
Qed.

End Steps.


(** ** Invariants of a run of coroutines *)

Lemma size_add_device (d : string) (D : gset string) : size ({[d]} ∪ D) <= size D + 1.
Proof.
  destruct (decide (d ∈ D)) as [Hin | Hout].
  - replace ({[d]} ∪ D) with D; [lia |].
    apply leibniz_equiv. intros x. rewrite elem_of_union, elem_of_singleton.
    split; [tauto |]. intros [-> | ?]; assumption.
  - rewrite size_union, size_singleton; [lia |].
    intros x Hx%elem_of_singleton. by subst.
Qed.

Lemma appended_trans s1 s2 s3 : appended s1 s2 -> appended s2 s3 -> appended s1 s3.
Proof.
  intros (A1 & A2 & A3) (B1 & B2 & B3).
  repeat split; etrans; eassumption.
Qed.

Section Invariants.

Variable json_loads : string -> option JVal.
Variable fromisoformat : string -> option datetime.
Variable isoformat : datetime -> string.
Variable validate_sensor_reading : SensorData -> bool * list string.
Variable hash_sensor_data : SensorData -> string.

Local Abbreviation run_task' :=
  (run_task json_loads fromisoformat isoformat validate_sensor_reading hash_sensor_data).

(** X5: whatever coroutines run, in whatever order and with whatever
    failures, the stream records and the audit documents written earlier
    stay in place: the log and the collection only grow at their end.
    The connection handles and the running flag are not touched. *)
Theorem stores_are_append_only window s :
  let s' := run_window run_task' window s in
  kafka_log (world s) `prefix_of` kafka_log (world s')
  /\ mongo_sensor_metadata (world s) `prefix_of` mongo_sensor_metadata (world s')
  /\ handles s' = handles s.
Proof.
  cbv zeta. revert s. induction window as [| [env t] window IH]; intros s; simpl.
  - by repeat split.
  - destruct (run_task_step json_loads fromisoformat isoformat validate_sensor_reading
                hash_sensor_data env t s) as (_ & (_ & A2 & A3) & Hh).
    destruct (IH (snd (run_task' env t s))) as (B2 & B3 & Hh').
    split; [etrans; eassumption |]. split; [etrans; eassumption |].
    by rewrite Hh', Hh.
Qed.

(** X6: the number of active devices never exceeds the number of
    processed messages of the window: the invariant holds for a service
    just constructed and every coroutine, the reporter included, keeps
    it. *)
Theorem active_devices_bounded window s :
  size (devices_active (svc s)) <= messages_processed (svc s) ->
  let s' := run_window run_task' window s in
  size (devices_active (svc s')) <= messages_processed (svc s').
Proof.
  cbv zeta. revert s. induction window as [| [env t] window IH]; intros s Hs; simpl.
  - exact Hs.
  - apply IH.
    destruct (run_task_step json_loads fromisoformat isoformat validate_sensor_reading
                hash_sensor_data env t s) as (Hc & _ & _).
    destruct Hc as [(d & -> & _ & ->) | [(-> & -> & _) | (-> & _ & ->)]].
    + pose proof (size_add_device d (devices_active (svc s))). lia.
    + exact Hs.
    + by rewrite size_empty.
Qed.

(** X7: a run of [n] coroutines adds at most [n] to the sum of the two
    counters: no message is counted twice, as processed and as failed or
    twice as either. *)
Theorem counters_bounded_by_messages window s :
  let s' := run_window run_task' window s in
  messages_processed (svc s') + messages_failed (svc s')
  <= messages_processed (svc s) + messages_failed (svc s) + length window.
Proof.
  cbv zeta. revert s. induction window as [| [env t] window IH]; intros s; simpl.
  - lia.
  - specialize (IH (snd (run_task' env t s))).
    destruct (run_task_step json_loads fromisoformat isoformat validate_sensor_reading
                hash_sensor_data env t s) as (Hc & _ & _).
    destruct Hc as [(d & Hp & Hf & _) | [(Hp & _ & [Hf | Hf]) | (Hp & Hf & _)]]; lia.
Qed.

End Invariants.

Lemma active_devices_bounded_witness :
  size (devices_active (svc (run_window Demo.step Demo.window init_state)))
  <= messages_processed (svc (run_window Demo.step Demo.window init_state)).
Proof.
  apply (active_devices_bounded Sample.json_loads Sample.fromisoformat Sample.isoformat
           Sample.validate_sensor_reading (Crypto.hash_sensor_data Sample.digest)
           Demo.window init_state).
  change (size (∅ : gset string) <= 0). rewrite size_empty. lia.
Defined.

(** The sample run: one reading processed, one failed, one device
    active. *)
Example demo_window_counts :
  messages_processed (svc (run_window Demo.step Demo.window init_state)) = 1
  /\ messages_failed (svc (run_window Demo.step Demo.window init_state)) = 1
  /\ size (devices_active (svc (run_window Demo.step Demo.window init_state))) = 1.
Proof. repeat split; vm_compute; reflexivity. Qed.


(** ** Payloads *)

Section Payloads.

Variable json_loads : string -> option JVal.
Variable fromisoformat : string -> option datetime.
Variable isoformat : datetime -> string.
Variable validate_sensor_reading : SensorData -> bool * list string.
Variable hash_sensor_data : SensorData -> string.

Local Abbreviation build_reading' := (build_reading json_loads fromisoformat isoformat).
Local Abbreviation process_sensor_data' :=
  (process_sensor_data json_loads fromisoformat isoformat validate_sensor_reading
     hash_sensor_data).

(** X8: a payload with a numeric value and none of the optional keys
    builds the reading with the defaults of the source: the time of
    ingestion as timestamp, an empty unit, quality 1, no metadata and no
    hash. *)
Theorem build_reading_defaults env d ty payload items v :
  json_loads payload = Some (JObj items) ->
  dict_lookup "value" items = Some (JNum v) ->
  dict_lookup "timestamp" items = None -> dict_lookup "unit" items = None ->
  dict_lookup "quality" items = None -> dict_lookup "metadata" items = None ->
  fromisoformat (isoformat (now env)) = Some (now env) ->
  build_reading' env d ty payload
  = Ret {| device_id := d; sensor_type := ty; timestamp := now env; value := v;
           unit_ := ""; quality := 1; metadata := []; data_hash := None |}.
Proof.
  intros E Hv Ht Hu Hq Hm Hiso.
  unfold build_reading, loads, as_dict, dict_get. rewrite E. simpl.
  rewrite !res_bind_unfold. rewrite Ht, Hiso, Hv, Hu, Hq, Hm. reflexivity.
Qed.

(** A payload that is not JSON, is not a JSON object, or has no [value]
    key builds no reading. *)
Lemma build_reading_malformed env d ty payload :
  json_loads payload = None
  \/ (exists v, json_loads payload = Some v /\ forall items, v <> JObj items)
  \/ (exists items, json_loads payload = Some (JObj items)
                    /\ dict_lookup "value" items = None) ->
  exists e, build_reading' env d ty payload = Exn e.
Proof.
  unfold build_reading, loads, as_dict.
  intros [E | [(v & E & Hv) | (items & E & Hv)]]; rewrite E; simpl.
  - by eexists.
  - destruct v; try by eexists. by destruct (Hv items).
  - rewrite !res_bind_unfold.
    destruct (dict_get "timestamp" _ items); try by eexists.
    destruct (fromisoformat s); [| by eexists]. rewrite Hv. by eexists.
Qed.

(** X9: a sensor message whose payload is not JSON, is not a JSON object
    or lacks the [value] key is counted as failed, and nothing else
    happens: no sink call is made, no store changes, and the processed
    counter and the active devices stay as they were. *)
Theorem malformed_payload_counted_failed env d ty payload st :
  json_loads payload = None
  \/ (exists v, json_loads payload = Some v /\ forall items, v <> JObj items)
  \/ (exists items, json_loads payload = Some (JObj items)
                    /\ dict_lookup "value" items = None) ->
  let out := process_sensor_data' env d ty payload st in
  fst out = Ret tt
  /\ messages_failed (svc (snd out)) = messages_failed (svc st) + 1
  /\ messages_processed (svc (snd out)) = messages_processed (svc st)
  /\ devices_active (svc (snd out)) = devices_active (svc st)
  /\ new_calls st (snd out) = []
  /\ sinks_of (snd out) = sinks_of st
  /\ frame (world (snd out)) = None.
Proof.
  intros H. destruct (build_reading_malformed env d ty payload H) as [e HB].
  pose proof (build_reading_exception _ _ _ _ _ _ _ _ HB) as He.
  cbv zeta. destruct st as [[] []]. unfold sinks_of.
  destruct e; try discriminate He; enter_task HB; compare_fields; reflexivity.
Qed.

End Payloads.

Lemma build_reading_defaults_witness :
  build_reading Sample.json_loads Sample.fromisoformat Sample.isoformat Sample.no_faults
    "dev1" "co2" "{'value': -5}"
  = Ret {| device_id := "dev1"; sensor_type := "co2"; timestamp := 60; value := -5;
           unit_ := ""; quality := 1; metadata := []; data_hash := None |}.
Proof.
  apply (build_reading_defaults Sample.json_loads Sample.fromisoformat Sample.isoformat
           Sample.no_faults "dev1" "co2" "{'value': -5}" [("value", JNum (-5))]);
    reflexivity.
Defined.

Lemma malformed_payload_witness :
  fst (Sample.process Sample.no_faults "not json") = Ret tt
  /\ messages_failed (svc (snd (Sample.process Sample.no_faults "not json")))
     = messages_failed (svc init_state) + 1
  /\ messages_processed (svc (snd (Sample.process Sample.no_faults "not json")))
     = messages_processed (svc init_state)
  /\ devices_active (svc (snd (Sample.process Sample.no_faults "not json")))
     = devices_active (svc init_state)
  /\ new_calls init_state (snd (Sample.process Sample.no_faults "not json")) = []
  /\ sinks_of (snd (Sample.process Sample.no_faults "not json")) = sinks_of init_state
  /\ frame (world (snd (Sample.process Sample.no_faults "not json"))) = None.
Proof.
  apply (malformed_payload_counted_failed Sample.json_loads Sample.fromisoformat
           Sample.isoformat Sample.validate_sensor_reading
           (Crypto.hash_sensor_data Sample.digest) Sample.no_faults "dev1" "co2"
           "not json" init_state).
  left. reflexivity.
Defined.


(** ** What the callback queues *)

(** X10: the callback queues at most one coroutine per message, with the
    payload untouched.  A sensor coroutine gets the third segment as
    device and, as sensor type, [unknown] for a four-segment topic and
    the fourth segment, which is then [data], for a longer one; a status
    or config coroutine gets the second segment as device. *)
Theorem callback_queues_at_most_one env topic payload st :
  let parts := split slash topic in
  let queued := drop (length (tasks (world st)))
                  (tasks (world (snd (on_mqtt_message env topic payload st)))) in
  queued = []
  \/ (exists dev, parts !! 2 = Some dev /\ length parts = 4
                  /\ queued = [SensorDataTask dev "unknown" payload])
  \/ (exists dev, parts !! 2 = Some dev /\ parts !! 3 = Some "data"
                  /\ queued = [SensorDataTask dev "data" payload])
  \/ (exists dev, parts !! 1 = Some dev /\ queued = [DeviceStatusTask dev payload])
  \/ (exists dev, parts !! 1 = Some dev /\ queued = [DeviceConfigTask dev payload]).
Proof.
  cbv zeta. unfold on_mqtt_message.
  destruct (split slash topic) as [| a [| b [| c [| d [| e rest]]]]];
    simpl; repeat case_bool_decide; simplify_eq; simpl;
    destruct st as [[] []];
    lazy beta delta [create_task ext_call item]; simpl;
    destruct (fails env CreateTask) eqn:F; reduce_state;
    rewrite ?drop_all, ?drop_app_length; eauto 10.
Qed.

(** X11: when a branch of the callback is taken but the coroutine cannot
    be queued ([create_task] raises, as it does without a running event
    loop), the callback still returns; it queues nothing and counts one
    failure. *)
Theorem callback_counts_unqueued_message env topic payload st :
  fails env CreateTask = true ->
  split slash topic !! 3 = Some "data" \/ split slash topic !! 2 = Some "status"
  \/ split slash topic !! 2 = Some "config" ->
  let out := on_mqtt_message env topic payload st in
  fst out = Ret tt
  /\ tasks (world (snd out)) = tasks (world st)
  /\ messages_failed (svc (snd out)) = messages_failed (svc st) + 1
  /\ messages_processed (svc (snd out)) = messages_processed (svc st).
Proof.
  intros F H. cbv zeta. unfold on_mqtt_message.
  destruct (split slash topic) as [| a [| b [| c [| d [| e rest]]]]];
    simpl in *; repeat case_bool_decide; simplify_eq; simpl;
    try (destruct H as [H | [H | H]]; congruence);
    destruct st as [[] []];
    lazy beta delta [create_task ext_call item]; simpl; rewrite ?F; reduce_state;
    repeat split; reflexivity.
Qed.

Lemma callback_counts_unqueued_message_witness :
  fst (on_mqtt_message (Sample.failing CreateTask) "carbon/x/dev1/data" "{}" init_state)
  = Ret tt
  /\ tasks (world (snd (on_mqtt_message (Sample.failing CreateTask) "carbon/x/dev1/data"
                          "{}" init_state)))
     = tasks (world init_state)
  /\ messages_failed
       (svc (snd (on_mqtt_message (Sample.failing CreateTask) "carbon/x/dev1/data" "{}"
                    init_state)))
     = messages_failed (svc init_state) + 1
  /\ messages_processed
       (svc (snd (on_mqtt_message (Sample.failing CreateTask) "carbon/x/dev1/data" "{}"
                    init_state)))
     = messages_processed (svc init_state).
Proof.
  apply (callback_counts_unqueued_message (Sample.failing CreateTask)
           "carbon/x/dev1/data" "{}" init_state); [reflexivity |].
  left. reflexivity.
Defined.


(** ** Startup and shutdown *)

Lemma keep_running_interrupted n s :
  running (svc s) = true -> keep_running n s = (Exn Interrupted, s).
Proof.
  intros R. induction n as [| n IH]; simpl; rewrite bind_unfold; simpl; rewrite R.
  - reflexivity.
  - exact IH.
Qed.

(** Runs [Teardown.shutdown] once the outcome of each close call it
    reaches is known. *)
Ltac reduce_close :=
  lazy beta iota zeta delta
    [Teardown.shutdown Teardown.close_call Teardown.client_open Teardown.has_client
     Teardown.first_raising Teardown.close_order Teardown.rank Teardown.is_open
     Teardown.is_some Teardown.close_error List.find andb Nat.ltb Nat.leb init_service];
  reduce_state.

(** Rewrites with the known outcomes of the close calls. *)
Ltac use_raises raises :=
  repeat match goal with
         | H : raises ?c = _ |- context [raises ?c] => rewrite H
         end.

(** Closes a case of [Teardown.shutdown] whose close calls are settled. *)
Ltac close_leaf raises :=
  reduce_close; use_raises raises; reduce_close;
  repeat match goal with |- _ /\ _ => split end;
  try reflexivity;
  intros c; destruct c; reflexivity.

(** X12: [shutdown] clears [running] first, whatever follows.  When no
    close call of an existing client raises it returns with every client
    closed.  When one raises, nothing catches it: the exception leaves
    [shutdown], the clients before it in the order of the source are
    closed, and the clients from it on are left as they were, open if
    they were open.  No client is created or dropped either way. *)
Theorem shutdown_stops_at_failing_close raises s :
  let out := Teardown.shutdown raises s in
  running (svc (snd out)) = false
  /\ (forall c, Teardown.has_client c (snd out) = Teardown.has_client c s)
  /\ match Teardown.first_raising raises s with
     | None =>
         fst out = Ret tt
         /\ out = shutdown s
         /\ forall c, Teardown.client_open c (snd out) = false
     | Some c0 =>
         fst out = Exn (Teardown.close_error c0)
         /\ forall c, Teardown.client_open c (snd out)
                      = if (Teardown.rank c <? Teardown.rank c0)%nat then false
                        else Teardown.client_open c s
     end.
Proof.
  cbv zeta. destruct s as [[m k i r g ? ? ? ?] []].
  destruct m as [m |];
    [destruct (raises Teardown.MqttDisconnect) eqn:F1; [close_leaf raises |] |];
    (destruct k as [k |];
     [destruct (raises Teardown.KafkaClose) eqn:F2; [close_leaf raises |] |]);
    (destruct i as [i |];
     [destruct (raises Teardown.InfluxClose) eqn:F3; [close_leaf raises |] |]);
    (destruct r as [r |];
     [destruct (raises Teardown.RedisClose) eqn:F4; [close_leaf raises |] |]);
    (destruct g as [g |];
     [destruct (raises Teardown.MongoClose) eqn:F5; [close_leaf raises |] |]);
    close_leaf raises.
Qed.

(** X13: when every connection succeeds but the broker answers the connect
    with a non-zero return code, startup still completes: [running] is
    set and the network loop runs, but no topic is subscribed, so no
    message will arrive. *)
Theorem startup_with_refused_connect env w :
  (forall c, c ∈ connect_steps -> fails env c = false) ->
  connack_rc env <> 0 ->
  exists s1,
    (initialize env;; loop_start env) (fresh w) = (Ret tt, s1)
    /\ running (svc s1) = true
    /\ mqtt_client (svc s1)
       = Some {| connected := true; loop_started := true; subscriptions := [] |}.
Proof.
  intros Hf Hrc.
  assert (fails env InfluxConnect = false) as F1 by (apply Hf; repeat constructor).
  assert (fails env RedisPing = false) as F2 by (apply Hf; repeat constructor).
  assert (fails env MongoPing = false) as F3 by (apply Hf; repeat constructor).
  assert (fails env KafkaInit = false) as F4 by (apply Hf; repeat constructor).
  assert (fails env MqttConnect = false) as F5 by (apply Hf; repeat constructor).
  assert (Nat.eqb (connack_rc env) 0 = false) as Hr by (by apply Nat.eqb_neq).
  eexists.
  lazy beta delta [initialize loop_start on_mqtt_connect ext_call].
  rewrite F1, F2, F3, F4, F5, Hr. reduce_state.
  split; [reflexivity |]. split; reflexivity.
Qed.

Lemma startup_with_refused_connect_witness :
  (forall c, c ∈ connect_steps -> fails Demo.refused c = false)
  /\ connack_rc Demo.refused <> 0
  /\ exists s1,
       (initialize Demo.refused;; loop_start Demo.refused) (fresh empty_world)
       = (Ret tt, s1)
       /\ running (svc s1) = true
       /\ mqtt_client (svc s1)
          = Some {| connected := true; loop_started := true; subscriptions := [] |}.
Proof.
  assert (forall c, c ∈ connect_steps -> fails Demo.refused c = false) as Hf
    by (intros c _; reflexivity).
  assert (connack_rc Demo.refused <> 0) as Hrc by (simpl; lia).
  split; [exact Hf |]. split; [exact Hrc |].
  exact (startup_with_refused_connect Demo.refused empty_world Hf Hrc).
Defined.

Lemma startup_calls_all (P : ExtCall -> Prop) :
  (forall c, c ∈ startup_calls -> P c)
  <-> P InfluxConnect /\ P RedisPing /\ P MongoPing /\ P KafkaInit
      /\ P MqttConnect /\ P CreateTask.
Proof.
  unfold startup_calls, connect_steps. simpl. split.
  - intros H. repeat split; apply H; repeat constructor.
  - intros (? & ? & ? & ? & ? & ?) c Hc.
    repeat (apply elem_of_cons in Hc as [-> | Hc]; [assumption |]).
    by apply elem_of_nil in Hc.
Qed.

(** Settles the close calls [Teardown.shutdown] reaches, one after the
    other, then closes the goal, which is stated on the outcome [out]. *)
Ltac close_calls raises out :=
  reduce_close;
  lazymatch goal with
  | |- context [if raises ?c then _ else _] =>
      let R := fresh "R" in
      destruct (raises c) eqn:R; close_calls raises out
  | _ =>
      intros ->; unfold all_closed; reduce_close; use_raises raises; reduce_close;
      repeat match goal with |- _ /\ _ => split end;
      first
        [ reflexivity
        | discriminate
        | solve [intros [=]]
        | solve [intros c0 [=]]
        | solve [intros c0 [= <-]; split; [reflexivity |]; intros c Hle Hne; destruct c;
                 first [reflexivity | done | lia]]
        | solve [intros _; repeat match goal with |- _ /\ _ => split end;
                 first [reflexivity | discriminate | done | intuition discriminate]] ]
  end.

(** Runs [Teardown.run] once the outcome of every startup call is
    known. *)
Ltac run_leaf raises :=
  match goal with
  | |- context [Teardown.run ?e ?r ?n ?s] =>
      let out := fresh "out" in
      let E := fresh "E" in
      remember (Teardown.run e r n s) as out eqn:E; revert E;
      lazy beta delta
        [Teardown.run run initialize loop_start create_task on_mqtt_connect ext_call];
      use_flags;
      repeat match goal with
             | H : Nat.eqb ?a ?b = _ |- context [Nat.eqb ?a ?b] => rewrite H
             end;
      reduce_state;
      rewrite ?keep_running_interrupted by reflexivity;
      close_calls raises out
  end.

(** X14: [run] on a service just constructed, once the InfluxDB client
    has been created, never returns normally and always reaches
    [shutdown], which clears [running].  When no close call of an
    existing client raises, every client ends closed and the error that
    leaves [run] is the interruption exactly when every startup call
    succeeded.  When a close call raises inside the [finally] clause,
    its exception replaces the one that was under way, the interruption
    included, and every later client that exists, the MQTT client apart,
    is left open. *)
Theorem run_ends_in_shutdown env raises n w :
  fails env InfluxConnect = false ->
  let out := Teardown.run env raises n (fresh w) in
  fst out <> Ret tt
  /\ running (svc (snd out)) = false
  /\ (Teardown.first_raising raises (snd out) = None ->
      out = run env n (fresh w)
      /\ all_closed (snd out)
      /\ (fst out = Exn Interrupted
          <-> forall c, c ∈ startup_calls -> fails env c = false))
  /\ (forall c0, Teardown.first_raising raises (snd out) = Some c0 ->
      fst out = Exn (Teardown.close_error c0)
      /\ forall c, (Teardown.rank c0 <= Teardown.rank c)%nat ->
                   c <> Teardown.MqttDisconnect ->
                   Teardown.client_open c (snd out) = Teardown.has_client c (snd out)).
Proof.
  intros F1. cbv zeta. setoid_rewrite startup_calls_all.
  destruct (fails env RedisPing) eqn:F2; [run_leaf raises |].
  destruct (fails env MongoPing) eqn:F3; [run_leaf raises |].
  destruct (fails env KafkaInit) eqn:F4; [run_leaf raises |].
  destruct (fails env MqttConnect) eqn:F5; [run_leaf raises |].
  destruct (fails env CreateTask) eqn:F6;
    destruct (Nat.eqb (connack_rc env) 0) eqn:Hr; run_leaf raises.
Qed.

Lemma run_ends_in_shutdown_witness :
  let raises := fun c => match c with Teardown.InfluxClose => true | _ => false end in
  let out := Teardown.run (Sample.failing RedisPing) raises 0 (fresh empty_world) in
  fails (Sample.failing RedisPing) InfluxConnect = false
  /\ fst (initialize (Sample.failing RedisPing) (fresh empty_world))
     = Exn (ConnectError "redis")
  /\ fst out = Exn (ConnectError "influxdb")
  /\ Teardown.client_open Teardown.RedisClose (snd out) = true.
Proof.
  cbv zeta.
  pose proof (run_ends_in_shutdown (Sample.failing RedisPing)
                (fun c => match c with Teardown.InfluxClose => true | _ => false end)
                0 empty_world eq_refl) as (_ & _ & _ & H).
  destruct (H Teardown.InfluxClose eq_refl) as [He Ho].
  split; [reflexivity |]. split; [reflexivity |]. split; [exact He |].
  apply (Ho Teardown.RedisClose); [simpl; lia | discriminate].
Defined.


(** ** Device configuration and status *)

Lemma dict_lookup_app k l1 l2 :
  dict_lookup k (l1 ++ l2)
  = match dict_lookup k l1 with
    | Some v => Some v
    | None => dict_lookup k l2
    end.
Proof.
  induction l1 as [| [k' v'] l1 IH]; simpl; [done |].
  by destruct (String.eqb k' k).
Qed.

Lemma dict_lookup_updated k a b :
  dict_lookup k (map (fun kv => (fst kv, dict_get (fst kv) (snd kv) b)) a)
  = match dict_lookup k a with
    | Some v => Some (dict_get k v b)
    | None => None
    end.
Proof.
  induction a as [| [k' v'] a IH]; simpl; [done |].
  by destruct (String.eqb_spec k' k) as [-> |].
Qed.

Lemma dict_lookup_fresh k a l :
  dict_lookup k a = None ->
  dict_lookup k (filter (fun kv => bool_decide (dict_lookup (fst kv) a = None)) l)
  = dict_lookup k l.
Proof.
  intros Ha. induction l as [| [k' v'] l IH]; [done |].
  rewrite filter_cons. simpl.
  destruct (String.eqb_spec k' k) as [-> | Hne].
  - rewrite Ha. simpl. by rewrite String.eqb_refl.
  - destruct (bool_decide (dict_lookup k' a = None)); simpl; [| exact IH].
    by destruct (String.eqb_spec k' k).
Qed.

(** [{**a, **b}] looks a key up in [b] first. *)
Lemma dict_lookup_merge k a b :
  dict_lookup k (dict_merge a b)
  = match dict_lookup k b with
    | Some v => Some v
    | None => dict_lookup k a
    end.
Proof.
  unfold dict_merge. rewrite dict_lookup_app, dict_lookup_updated.
  destruct (dict_lookup k a) as [v |] eqn:Ha.
  - unfold dict_get. by destruct (dict_lookup k b).
  - rewrite dict_lookup_fresh by done. by destruct (dict_lookup k b).
Qed.

Section Devices.

Variable json_loads : string -> option JVal.
Variable isoformat : datetime -> string.

Local Abbreviation process_device_status' := (process_device_status json_loads isoformat).
Local Abbreviation process_device_config' := (process_device_config json_loads).

(** X15: for a status update whose payload is a JSON object, whose six
    stored fields are values Redis accepts (strings or numbers, not
    null, booleans or containers) and whose record key is a non-empty
    string, with the hash write and the send succeeding: one record is
    appended to the device-status stream; it is keyed by the payload's
    [device_id] when the payload has one and by the device of the topic
    only otherwise; its timestamp is the payload's when it has one and
    the ingestion time otherwise; every field of the payload passes into
    the record; and the cache entry is the one of the topic's device,
    whatever device the payload names. *)
Theorem status_record_prefers_payload env d payload data key st :
  json_loads payload = Some (JObj data) ->
  fails env RedisHset = false -> fails env KafkaSend = false ->
  (forall f v, status_mapping isoformat env data !! f = Some v -> redis_value v = true) ->
  dict_get "device_id" (JStr d) data = JStr key -> key <> "" ->
  let st' := snd (process_device_status json_loads isoformat env d payload st) in
  (exists rec,
     kafka_log (world st') = kafka_log (world st) ++ [rec]
     /\ k_topic rec = "device-status"
     /\ k_key rec = Some (JStr key)
     /\ dict_lookup "timestamp" (k_value rec)
        = Some (dict_get "timestamp" (JStr (isoformat (now env))) data)
     /\ forall k v, dict_lookup k data = Some v -> dict_lookup k (k_value rec) = Some v)
  /\ (dict_lookup "device_id" data = None -> key = d)
  /\ redis_hashes (world st')
     = <["device_status:" +:+ d :=
           status_mapping isoformat env data
           ∪ default ∅ (redis_hashes (world st) !! ("device_status:" +:+ d))]>
         (redis_hashes (world st)).
Proof.
  intros E F1 F2 _ Hkey _. cbv zeta. destruct st as [[] []].
  lazy beta delta [process_device_status loads as_dict lift publish_to_kafka hset ext_call].
  rewrite E, F1, F2. reduce_state.
  split; [| split; [| reflexivity]].
  - eexists. split; [reflexivity |].
    lazy beta iota delta [kafka_record k_topic k_key k_value].
    split; [reflexivity |].
    rewrite !dict_lookup_merge. rewrite <- Hkey. unfold dict_get.
    split; [by destruct (dict_lookup "device_id" data) |].
    split; [by destruct (dict_lookup "timestamp" data) |].
    intros k v Hk. by rewrite dict_lookup_merge, Hk.
  - intros Hn. unfold dict_get in Hkey. rewrite Hn in Hkey. by injection Hkey.
Qed.

(** X16: neither a status update nor a configuration update ever touches
    the service object: whatever goes wrong in them (a payload that is
    not JSON, a failing store), no message is counted as processed or
    failed and no device becomes active. *)
Theorem device_updates_never_counted env d payload st :
  svc (snd (process_device_status json_loads isoformat env d payload st)) = svc st
  /\ svc (snd (process_device_config json_loads env d payload st)) = svc st.
Proof.
  destruct st as [[] []]. split.
  - lazy beta delta [process_device_status loads as_dict lift publish_to_kafka hset ext_call].
    destruct (json_loads payload) as [[] |]; try (reduce_state; reflexivity).
    destruct (fails env RedisHset) eqn:F1; [reduce_state; reflexivity |].
    destruct (fails env KafkaSend) eqn:F2; reduce_state; reflexivity.
  - lazy beta delta [process_device_config loads lift ext_call].
    destruct (json_loads payload) as [v |]; [| reduce_state; reflexivity].
    destruct (fails env MongoUpdate) eqn:F1; reduce_state; reflexivity.
Qed.

Lemma process_device_config_stored env d payload data st :
  json_loads payload = Some data -> fails env MongoUpdate = false ->
  mongo_device_configs (world (snd (process_device_config' env d payload st)))
  = <[d := config_document env d data]> (mongo_device_configs (world st)).
Proof.
  intros E F. destruct st as [[] []].
  lazy beta delta [process_device_config loads lift ext_call].
  rewrite E, F. reduce_state. reflexivity.
Qed.

(** X17: a configuration update whose payload is not JSON, or whose write
    fails, leaves every stored configuration as it was. *)
Theorem config_failure_keeps_configs env d payload st :
  json_loads payload = None \/ fails env MongoUpdate = true ->
  mongo_device_configs (world (snd (process_device_config' env d payload st)))
  = mongo_device_configs (world st).
Proof.
  intros H. destruct st as [[] []].
  lazy beta delta [process_device_config loads lift ext_call].
  destruct (json_loads payload) as [v |]; [| reduce_state; reflexivity].
  destruct H as [H | H]; [done |]. rewrite H. reduce_state. reflexivity.
Qed.

(** X18: configuration updates are upserts keyed by the device and the
    last one wins: after two stored updates for a device its document is
    the one of the second update, whatever the first was, and the
    documents of the other devices are the ones that were there. *)
Theorem config_last_write_wins env1 env2 d payload1 payload2 data1 data2 st :
  json_loads payload1 = Some data1 -> json_loads payload2 = Some data2 ->
  fails env1 MongoUpdate = false -> fails env2 MongoUpdate = false ->
  let st2 := snd (process_device_config' env2 d payload2
                    (snd (process_device_config' env1 d payload1 st))) in
  mongo_device_configs (world st2) !! d = Some (config_document env2 d data2)
  /\ (forall d', d' <> d ->
        mongo_device_configs (world st2) !! d' = mongo_device_configs (world st) !! d')
  /\ mongo_device_configs (world st2)
     = mongo_device_configs (world (snd (process_device_config' env2 d payload2 st))).
Proof.
  intros E1 E2 F1 F2. cbv zeta.
  rewrite !(process_device_config_stored env2 d payload2 data2) by done.
  rewrite (process_device_config_stored env1 d payload1 data1) by done.
  split; [apply lookup_insert_eq |]. split.
  - intros d' Hd. by rewrite !lookup_insert_ne.
  - apply insert_insert_eq.
Qed.

End Devices.

Lemma status_record_prefers_payload_witness :
  Demo.relayed "{'device_id': 'gw7', 'status': 'online'}"
  = Some (JObj [("device_id", JStr "gw7"); ("status", JStr "online")])
  /\ exists rec,
       kafka_log (world (snd (process_device_status Demo.relayed Sample.isoformat
                                Sample.no_faults "dev1"
                                "{'device_id': 'gw7', 'status': 'online'}" init_state)))
       = kafka_log (world init_state) ++ [rec]
       /\ k_key rec = Some (JStr "gw7").
Proof.
  split; [reflexivity |].
  assert (forall f v,
            status_mapping Sample.isoformat Sample.no_faults
              [("device_id", JStr "gw7"); ("status", JStr "online")] !! f = Some v ->
            redis_value v = true) as Hv.
  { intros f v H. apply elem_of_list_to_map_2 in H.
    repeat (apply elem_of_cons in H as [H | H]; [by inversion H |]).
    by apply elem_of_nil in H. }
  assert ("gw7" <> "") as Hne by discriminate.
  destruct (status_record_prefers_payload Demo.relayed Sample.isoformat Sample.no_faults
              "dev1" "{'device_id': 'gw7', 'status': 'online'}"
              [("device_id", JStr "gw7"); ("status", JStr "online")] "gw7" init_state
              eq_refl eq_refl eq_refl Hv eq_refl Hne) as ((rec & H1 & _ & H2 & _) & _).
  exists rec. split; [exact H1 | exact H2].
Defined.

Lemma config_failure_keeps_configs_witness :
  (Sample.json_loads "not json" = None \/ fails Sample.no_faults MongoUpdate = true)
  /\ mongo_device_configs
       (world (snd (process_device_config Sample.json_loads Sample.no_faults "dev1"
                      "not json" init_state)))
     = mongo_device_configs (world init_state).
Proof.
  split; [left; reflexivity |].
  apply (config_failure_keeps_configs Sample.json_loads Sample.no_faults "dev1"
           "not json" init_state).
  left; reflexivity.
Defined.

Lemma config_last_write_wins_witness :
  Sample.json_loads "{'value': 450, 'unit': 'ppm'}"
  = Some (JObj [("value", JNum 450); ("unit", JStr "ppm")])
  /\ Sample.json_loads "{'value': -5}" = Some (JObj [("value", JNum (-5))])
  /\ mongo_device_configs
       (world (snd (process_device_config Sample.json_loads Sample.no_faults "dev1"
                      "{'value': -5}"
                      (snd (process_device_config Sample.json_loads Sample.no_faults "dev1"
                              "{'value': 450, 'unit': 'ppm'}" init_state)))))
     !! "dev1"
     = Some (config_document Sample.no_faults "dev1" (JObj [("value", JNum (-5))])).
Proof.
  split; [reflexivity |]. split; [reflexivity |].
  apply (config_last_write_wins Sample.json_loads Sample.no_faults Sample.no_faults "dev1"
           "{'value': 450, 'unit': 'ppm'}" "{'value': -5}"
           (JObj [("value", JNum 450); ("unit", JStr "ppm")])
           (JObj [("value", JNum (-5))]) init_state
           eq_refl eq_refl eq_refl eq_refl).
Defined.

(** ** The latest-reading cache *)

Section Cache.

Variable isoformat : datetime -> string.

Local Abbreviation cache_latest_reading' := (cache_latest_reading isoformat).
Local Abbreviation latest_mapping' := (latest_mapping isoformat).

Lemma latest_mapping_fields r f :
  f ∈ latest_fields <-> is_Some (latest_mapping' r !! f).
Proof.
  unfold latest_mapping, latest_fields. split.
  - intros Hf.
    repeat (apply elem_of_cons in Hf as [-> | Hf]; [by eexists |]).
    by apply elem_of_nil in Hf.
  - intros [v Hv].
    apply elem_of_list_to_map_2 in Hv.
    repeat (apply elem_of_cons in Hv as [Hv | Hv];
            [inversion Hv; subst; repeat constructor |]).
    by apply elem_of_nil in Hv.
Qed.

(** X19: when the hash write succeeds, the entry of the reading's device
    and sensor type holds the five fields of this reading; any other
    field the entry had before stays in it; no other entry changes; and
    the entry's time to live becomes 3600 seconds only if the expire
    call succeeds too: otherwise the entry is stored with the time to
    live it had, and the coroutine still returns. *)
Theorem cache_entry_merges env r st :
  fails env RedisHset = false ->
  let st' := snd (cache_latest_reading' env r st) in
  let old := default ∅ (redis_hashes (world st) !! latest_key r) in
  fst (cache_latest_reading' env r st) = Ret tt
  /\ (exists entry,
        redis_hashes (world st') !! latest_key r = Some entry
        /\ (forall f, f ∈ latest_fields -> entry !! f = latest_mapping' r !! f)
        /\ (forall f, f ∉ latest_fields -> entry !! f = old !! f))
  /\ (forall k, k <> latest_key r ->
        redis_hashes (world st') !! k = redis_hashes (world st) !! k)
  /\ redis_ttl (world st')
     = (if fails env RedisExpire then redis_ttl (world st)
        else <[latest_key r := 3600]> (redis_ttl (world st))).
Proof.
  intros F. cbv zeta. destruct st as [[] []].
  lazy beta delta [cache_latest_reading hset expire ext_call].
  rewrite F.
  destruct (fails env RedisExpire) eqn:F2; reduce_state.
  all: split; [reflexivity |]; split; [| split; [| reflexivity]].
  all: try (intros k Hk; by rewrite lookup_insert_ne).
  all: eexists; split; [apply lookup_insert_eq |]; split; intros f Hf.
  all: try (apply latest_mapping_fields with (r := r) in Hf as [v Hv];
            rewrite Hv; by apply lookup_union_Some_l).
  all: apply lookup_union_r;
       destruct (latest_mapping' r !! f) eqn:E; [| reflexivity];
       exfalso; apply Hf, (latest_mapping_fields r); by eexists.
Qed.

(** X20: when the hash write fails, the cache is left exactly as it was,
    the expire call is not attempted, and the coroutine returns without
    an error and without counting anything. *)
Theorem cache_failure_is_silent env r st :
  fails env RedisHset = true ->
  let st' := snd (cache_latest_reading' env r st) in
  fst (cache_latest_reading' env r st) = Ret tt
  /\ redis_hashes (world st') = redis_hashes (world st)
  /\ redis_ttl (world st') = redis_ttl (world st)
  /\ new_calls st st' = [RedisHset]
  /\ svc st' = svc st.
Proof.
  intros F. cbv zeta. destruct st as [[] []].
  lazy beta delta [cache_latest_reading hset expire ext_call].
  rewrite F. reduce_state.
  repeat split. by rewrite drop_app_length.
Qed.

End Cache.

Lemma cache_entry_merges_witness :
  fails (Sample.failing RedisExpire) RedisHset = false
  /\ redis_ttl (world (snd (cache_latest_reading Sample.isoformat
                              (Sample.failing RedisExpire) Sample.reading init_state)))
     = ∅.
Proof.
  split; [reflexivity |].
  pose proof (cache_entry_merges Sample.isoformat (Sample.failing RedisExpire)
                Sample.reading init_state eq_refl) as (_ & _ & _ & H).
  exact H.
Defined.

Lemma cache_failure_is_silent_witness :
  fails (Sample.failing RedisHset) RedisHset = true
  /\ new_calls init_state
       (snd (cache_latest_reading Sample.isoformat (Sample.failing RedisHset)
               Sample.reading init_state)) = [RedisHset].
Proof.
  split; [reflexivity |].
  pose proof (cache_failure_is_silent Sample.isoformat (Sample.failing RedisHset)
                Sample.reading init_state eq_refl) as (_ & _ & _ & H & _).
  exact H.
Defined.
